(** * Offline-first core of FiCore Africa: service worker and offline manager

    A shallow embedding of [static/service-worker.js] and
    [static/js/offline-manager.js], and the properties of the offline
    specification that concern them, followed by the listeners and methods
    of the two files that the specification leaves aside and by the parts of
    [static/js/offline-forms.js] and [static/js/offline-dashboard.js] that
    call the manager.

    Modelling conventions.
    - An [await]ed platform call is modelled by its settled result: a network
      [fetch] either resolves with a response or rejects ([None]);
      [response.json()] rejects when the body is not JSON text; cache storage
      and the durable store are reliable key/value stores whose operations
      resolve with the value the code reads from the [await].
    - [Date.now()] and [Math.random()] are read from explicit arguments, one per
      call site, integers in milliseconds and a rational in [0,1).
    - Values that flow through [||] are kept as JavaScript values ([JsVal]) so
      that truthiness is the language's, not the model's. *)

From Stdlib Require Import QArith Lqa Sorted DecimalString.
From stdpp Require Import gmap strings list fin_maps.

Local Open Scope Z_scope.
Local Open Scope string_scope.

(** ** JavaScript strings *)

Module Js.

(** [s.startsWith(p)] *)
Fixpoint startsWith (s p : string) : bool :=
  match p with
  | EmptyString => true
  | String c p' =>
      match s with
      | EmptyString => false
      | String d s' => if Ascii.eqb c d then startsWith s' p' else false
      end
  end.

(** [s.includes(p)] *)
Fixpoint includes (s p : string) : bool :=
  startsWith s p ||
  match s with
  | EmptyString => false
  | String _ s' => includes s' p
  end.

(** [a === b] on strings *)
Definition strict_eq (a b : string) : bool := String.eqb a b.

(** [xs.some(f)] *)
Definition some {A} (xs : list A) (f : A -> bool) : bool := existsb f xs.

(** [xs.includes(x)] on an array of strings *)
Definition array_includes (xs : list string) (x : string) : bool :=
  existsb (strict_eq x) xs.

End Js.

(** ** Requests, responses and JavaScript values *)

(** The fields of [new URL(request.url)] that the code reads. *)
Record URL := mkURL {
  protocol : string;   (* with its trailing colon, as in "https:" *)
  host : string;
  pathname : string;
  search : string
}.

(** [request.url], the serialised URL *)
Definition href (u : URL) : string :=
  protocol u +:+ "//" +:+ host u +:+ pathname u +:+ search u.

Record Request := mkRequest {
  method : string;
  url : URL;
  accept : option string   (* request.headers.get('accept'); None is null *)
}.

(** JSON values, as deep as the code builds them: scalars and flat objects. *)
Inductive JScalar :=
| JBool (b : bool)
| JNum (n : Z)
| JStr (s : string).

Inductive JSON :=
| JVal (v : JScalar)
| JObj (fields : list (string * JScalar)).

Inductive Body :=
| JsonText (v : JSON)      (* text that JSON.parse accepts, with its value *)
| PlainText (s : string)   (* any other text *)
| OfflineHTML.             (* the page createOfflineHTML() returns *)

Record Response := mkResponse {
  status : Z;
  content_type : option string;
  body : Body
}.

(** [response.ok] *)
Definition ok (r : Response) : bool := (200 <=? status r)%Z && (status r <=? 299)%Z.

(** [response.json()]: [None] when the promise rejects *)
Definition json (r : Response) : option JSON :=
  match body r with
  | JsonText v => Some v
  | _ => None
  end.

(** The values that reach [||] and [respondWith]. A promise is represented by
    the value it settles with. *)
Inductive JsVal :=
| JsUndefined
| JsNull
| JsResponse (r : Response)
| JsPromise (settled : JsVal).

Definition truthy (v : JsVal) : bool :=
  match v with
  | JsUndefined | JsNull => false
  | JsResponse _ | JsPromise _ => true
  end.

(** [a || b] *)
Definition js_or (a b : JsVal) : JsVal := if truthy a then a else b.

(** What the promise of an async function resolves to when the function
    returns [v]: promises are unwrapped. *)
Fixpoint settle (v : JsVal) : JsVal :=
  match v with
  | JsPromise v' => settle v'
  | _ => v
  end.

Definition of_match (o : option Response) : JsVal :=
  match o with
  | Some r => JsResponse r
  | None => JsUndefined
  end.

(** A response is well formed when it is a [Response] object. *)
Definition is_response (v : JsVal) : Prop := exists r, v = JsResponse r.

(** ** Cache storage *)

(** [caches]: named caches in creation order, each a map from the request URL to
    the stored response. *)
Module CacheStorage.

Abbreviation Cache := (gmap string Response).
Definition t := list (string * Cache).

Definition keys (cs : t) : list string := map fst cs.

Fixpoint find (name : string) (cs : t) : option Cache :=
  match cs with
  | [] => None
  | (n, c) :: rest => if String.eqb n name then Some c else find name rest
  end.

(** [caches.match(key)]: the first cache, in creation order, with an entry *)
Fixpoint match_ (key : string) (cs : t) : option Response :=
  match cs with
  | [] => None
  | (_, c) :: rest =>
      match c !! key with
      | Some r => Some r
      | None => match_ key rest
      end
  end.

(** [caches.open(name)]: the cache is created when it does not exist *)
Definition open (name : string) (cs : t) : t :=
  match find name cs with
  | Some _ => cs
  | None => (cs ++ [(name, ∅)])%list
  end.

(** [cache.put(key, response)] on the cache called [name] *)
Fixpoint put (name key : string) (r : Response) (cs : t) : t :=
  match cs with
  | [] => []
  | (n, c) :: rest =>
      if String.eqb n name then (n, <[key := r]> c) :: rest
      else (n, c) :: put name key r rest
  end.

(** [caches.delete(name)] *)
Fixpoint delete (name : string) (cs : t) : t :=
  match cs with
  | [] => []
  | (n, c) :: rest =>
      if String.eqb n name then delete name rest else (n, c) :: delete name rest
  end.

End CacheStorage.

(** ** The durable store (IndexedDB database [FiCoreOfflineDB]) *)

(** A write intent as callers hand it to [storeOfflineAction]. Fields the
    manager never reads ([formId], [data]) are carried by the spread and left
    out here. *)
Module Action.
Record t := mk {
  type : string;
  url : string;
  method : option string;              (* None is undefined *)
  headers : list (string * string);    (* [] when undefined *)
  body : string
}.
End Action.

(** A record of the object store [offlineActions] (key path [id]). *)
Module QueuedAction.
Record t := mk {
  action : Action.t;
  timestamp : Z;
  synced : bool;
  id : Q
}.

(** [action.synced = true] *)
Definition mark_synced (a : t) : t :=
  {| action := action a; timestamp := timestamp a; synced := true; id := id a |}.
End QueuedAction.

(** A record of the object store [cachedData] (key path [key]). *)
Module CachedData.
Record t (Data : Type) := mk {
  key : string;
  data : Data;
  timestamp : Z;
  expiry : Z
}.
Arguments mk {Data}.
Arguments key {Data}.
Arguments data {Data}.
Arguments timestamp {Data}.
Arguments expiry {Data}.
End CachedData.

(** The object store [offlineActions]: its records in ascending key order,
    which is the order in which a cursor or [getAll] over an index whose keys
    are all equal yields them. *)
Module ActionStore.

Definition t := list QueuedAction.t.

Definition key_lt (k1 k2 : Q) : bool := negb (Qle_bool k2 k1).

(** [store.get(k)] *)
Fixpoint get (k : Q) (s : t) : option QueuedAction.t :=
  match s with
  | [] => None
  | x :: rest => if Qeq_bool k (QueuedAction.id x) then Some x else get k rest
  end.

(** [store.put(r)]: insert, or replace the record with the same key *)
Fixpoint put (r : QueuedAction.t) (s : t) : t :=
  match s with
  | [] => [r]
  | x :: rest =>
      if key_lt (QueuedAction.id r) (QueuedAction.id x) then r :: x :: rest
      else if Qeq_bool (QueuedAction.id r) (QueuedAction.id x) then r :: rest
      else x :: put r rest
  end.

(** [store.add(r)]: rejects ([None]) when the key is taken *)
Definition add (r : QueuedAction.t) (s : t) : option t :=
  match get (QueuedAction.id r) s with
  | Some _ => None
  | None => Some (put r s)
  end.

(** [store.index('synced').getAll(v)] *)
Definition getAll_synced (v : bool) (s : t) : list QueuedAction.t :=
  List.filter (fun a => Bool.eqb (QueuedAction.synced a) v) s.


(** Keys are strictly ascending, hence unique. *)
Definition wf (s : t) : Prop :=
  StronglySorted (fun a b => (QueuedAction.id a < QueuedAction.id b)%Q) s.

End ActionStore.

Module Db.
Record t (Data : Type) := mk {
  offlineActions : ActionStore.t;
  cachedData : gmap string (CachedData.t Data)
}.
Arguments mk {Data}.
Arguments offlineActions {Data}.
Arguments cachedData {Data}.
End Db.

(** A request issued with [fetch(url, init)]. *)
Record Replay := mkReplay {
  replay_url : string;
  replay_method : string;
  replay_headers : list (string * string);
  replay_body : string
}.

(** [{...a, ...b}] on objects kept as key/value lists: a key of [b] replaces the
    value at its place in [a], a new key is appended. *)
Fixpoint obj_set (k v : string) (o : list (string * string)) : list (string * string) :=
  match o with
  | [] => [(k, v)]
  | (k', v') :: rest =>
      if String.eqb k' k then (k', v) :: rest else (k', v') :: obj_set k v rest
  end.

Definition spread (a b : list (string * string)) : list (string * string) :=
  fold_left (fun o kv => obj_set (fst kv) (snd kv) o) b a.

(** ** static/service-worker.js *)

Module ServiceWorker.

Definition CACHE_VERSION : string := "v2.1".
Definition STATIC_CACHE : string := "ficore-static-" +:+ CACHE_VERSION.
Definition DYNAMIC_CACHE : string := "ficore-dynamic-" +:+ CACHE_VERSION.
Definition API_CACHE : string := "ficore-api-" +:+ CACHE_VERSION.

Definition STATIC_ASSETS : list string :=
  [ "/static/css/styles.css";
    "/static/css/bootstrap-icons.min.css";
    "/static/css/newbasefilelooks.css";
    "/static/css/iconslooks.css";
    "/static/css/newhomepagepersonal.css";
    "/static/css/dark_mode_enhancements.css";
    "/static/css/tool-header-fix.css";
    "/static/js/scripts.js";
    "/static/js/interactivity.js";
    "/static/js/offline-manager.js";
    "/static/manifest.json";
    "/static/img/favicon.ico";
    "/static/img/apple-touch-icon.png";
    "/static/img/favicon-32x32.png";
    "/static/img/favicon-16x16.png";
    "/static/img/default_profile.png";
    "/static/img/ficore_africa_logo.png";
    "/static/img/icons/icon-192x192.png";
    "/static/img/icons/icon-512x512.png" ].

Definition NETWORK_FIRST_ROUTES : list string :=
  [ "/users/login";
    "/users/logout";
    "/users/signup";
    "/users/forgot_password";
    "/users/reset_password";
    "/users/verify_2fa";
    "/api/notifications/count";
    "/change-language" ].

Definition CACHEABLE_API_ROUTES : list string :=
  [ "/dashboard/";
    "/bills/";
    "/budget/";
    "/shopping/";
    "/reports/";
    "/settings/profile" ].

Definition CACHE_FIRST_ROUTES : list string :=
  [ "/general/home";
    "/general/landing";
    "/set-language" ].

(** What a fetch event sees of the world: the cache storage, the outcome of
    [fetch(request)] ([None] when the promise rejects), the clock, and the
    origin against which [caches.match('/general/home')] resolves its URL. *)
Record World := mkWorld {
  caches : CacheStorage.t;
  network : Request -> option Response;
  now : Z;
  origin : string
}.

(** [request.headers.get('accept')?.includes(t)] as a condition *)
Definition accepts (request : Request) (t : string) : bool :=
  match accept request with
  | Some a => Js.includes a t
  | None => false
  end.

Definition createOfflineResponse (w : World) (request : Request) : JsVal :=
  if accepts request "text/html" then
    JsPromise
      (js_or (of_match (CacheStorage.match_ (origin w +:+ "/general/home") (caches w)))
             (JsResponse {| status := 200;
                            content_type := Some "text/html";
                            body := OfflineHTML |}))
  else if accepts request "application/json" then
    JsResponse
      {| status := 200;
         content_type := Some "application/json";
         body := JsonText
                   (JObj [ ("offline", JBool true);
                           ("message", JStr "This data is not available offline");
                           ("timestamp", JNum (now w)) ]) |}
  else
    JsResponse
      {| status := 503;
         content_type := Some "text/plain;charset=UTF-8";
         body := PlainText "Offline: Resource not available" |}.

(** [caches.open(name)] followed by [cache.put(request, response.clone())] *)
Definition store_in (name : string) (request : Request) (r : Response)
    (cs : CacheStorage.t) : CacheStorage.t :=
  CacheStorage.put name (href (url request)) r (CacheStorage.open name cs).

(** Each handler yields the value its promise settles with and the cache
    storage once its writes have landed. *)
Definition handleNetworkFirst (w : World) (request : Request)
    : JsVal * CacheStorage.t :=
  match network w request with
  | Some networkResponse =>
      let cs :=
        if ok networkResponse
        then store_in DYNAMIC_CACHE request networkResponse (caches w)
        else caches w in
      (JsResponse networkResponse, cs)
  | None =>
      match CacheStorage.match_ (href (url request)) (caches w) with
      | Some cachedResponse => (JsResponse cachedResponse, caches w)
      | None => (settle (createOfflineResponse w request), caches w)
      end
  end.

Definition handleCacheFirst (w : World) (request : Request)
    : JsVal * CacheStorage.t :=
  match CacheStorage.match_ (href (url request)) (caches w) with
  | Some cachedResponse => (JsResponse cachedResponse, caches w)
  | None =>
      match network w request with
      | Some networkResponse =>
          let cs :=
            if ok networkResponse
            then store_in STATIC_CACHE request networkResponse (caches w)
            else caches w in
          (JsResponse networkResponse, cs)
      | None => (settle (createOfflineResponse w request), caches w)
      end
  end.

Definition handleStaleWhileRevalidate (w : World) (request : Request)
    : JsVal * CacheStorage.t :=
  let cachedResponse :=
    of_match (CacheStorage.match_ (href (url request)) (caches w)) in
  (* fetch(request).then(...).catch(() => null) *)
  let fetchPromise :=
    JsPromise
      match network w request with
      | Some networkResponse => JsResponse networkResponse
      | None => JsNull
      end in
  let cs :=
    match network w request with
    | Some networkResponse =>
        if ok networkResponse
        then store_in
               (if Js.includes (href (url request)) "/api/"
                then API_CACHE else DYNAMIC_CACHE)
               request networkResponse (caches w)
        else caches w
    | None => caches w
    end in
  (settle (js_or (js_or cachedResponse fetchPromise)
                 (createOfflineResponse w request)),
   cs).

Inductive Handler :=
| NetworkFirst
| CacheFirst
| StaleWhileRevalidate.

Definition run (h : Handler) : World -> Request -> JsVal * CacheStorage.t :=
  match h with
  | NetworkFirst => handleNetworkFirst
  | CacheFirst => handleCacheFirst
  | StaleWhileRevalidate => handleStaleWhileRevalidate
  end.

(** The fetch listener up to [event.respondWith]: the handler whose promise
    is handed to [respondWith], or [None] when the listener returns without
    responding and the browser handles the request itself. *)
Definition fetch_listener (request : Request) : option Handler :=
  let requestUrl := url request in
  let pathname := pathname requestUrl in
  if negb (Js.strict_eq (method request) "GET")
     || Js.strict_eq (protocol requestUrl) "chrome-extension:"
  then None
  else if Js.some NETWORK_FIRST_ROUTES (fun route => Js.startsWith pathname route)
  then Some NetworkFirst
  else if Js.some CACHEABLE_API_ROUTES (fun route => Js.startsWith pathname route)
  then Some StaleWhileRevalidate
  else if Js.some CACHE_FIRST_ROUTES (fun route => Js.startsWith pathname route)
  then Some CacheFirst
  else if Js.some STATIC_ASSETS (fun asset => Js.strict_eq pathname asset)
  then Some CacheFirst
  else Some StaleWhileRevalidate.

(** The whole fetch event: what [respondWith] receives once settled. *)
Definition on_fetch (w : World) (request : Request)
    : option (JsVal * CacheStorage.t) :=
  match fetch_listener request with
  | Some h => Some (run h w request)
  | None => None
  end.

(** The activate listener: the cache storage after cleanup, and the
    messages posted to the clients. *)
Definition cacheWhitelist : list string := [STATIC_CACHE; DYNAMIC_CACHE; API_CACHE].

(** The callback of [cacheNames.map], applied to the storage *)
Definition cleanup_step (acc : CacheStorage.t) (cacheName : string) : CacheStorage.t :=
  if negb (Js.array_includes cacheWhitelist cacheName)
  then CacheStorage.delete cacheName acc
  else acc.

Definition activate (cs : CacheStorage.t) : CacheStorage.t * list string :=
  let cacheNames := CacheStorage.keys cs in
  (fold_left cleanup_step cacheNames cs, ["SW_UPDATED"]).

(** Background sync. The two IndexedDB helpers are the placeholders of the
    source. *)
Definition getOfflineDataFromIDB (idb : ActionStore.t) : list QueuedAction.t := [].

Definition removeOfflineDataFromIDB (id : Q) (idb : ActionStore.t)
    : bool * ActionStore.t := (true, idb).

Section Sync.
Context {Net : Type}.
Variable fetch : Net -> Replay -> option Response * Net.

Definition item_request (item : QueuedAction.t) : Replay :=
  let a := QueuedAction.action item in
  {| replay_url := Action.url a;
     replay_method := default "GET" (Action.method a);
     replay_headers := Action.headers a;
     replay_body := Action.body a |}.

Fixpoint sync_items (items : list QueuedAction.t) (idb : ActionStore.t) (n : Net)
    : ActionStore.t * Net * list Replay :=
  match items with
  | [] => (idb, n, [])
  | item :: rest =>
      let '(response, n1) := fetch n (item_request item) in
      let idb1 :=
        match response with
        | Some r =>
            if ok r then snd (removeOfflineDataFromIDB (QueuedAction.id item) idb)
            else idb
        | None => idb
        end in
      let '(idb2, n2, sent) := sync_items rest idb1 n1 in
      (idb2, n2, item_request item :: sent)
  end.

(** The store, the network, the requests sent and the messages posted. *)
Definition syncOfflineData (idb : ActionStore.t) (n : Net)
    : ActionStore.t * Net * list Replay * list string :=
  let offlineData := getOfflineDataFromIDB idb in
  let '(idb', n', sent) := sync_items offlineData idb n in
  (idb', n', sent, ["SYNC_COMPLETED"]).
End Sync.

End ServiceWorker.

(** ** static/js/offline-manager.js *)

Module OfflineManager.

(** One replay of a drain: the record handed to [syncSingleAction], the
    request it sent and what [fetch] settled with ([None]: rejected). *)
Record Attempt := mkAttempt {
  attempted : QueuedAction.t;
  sent : Replay;
  outcome : option Response
}.

(** Whether [syncSingleAction] resolves on what [fetch] settled with. *)
Definition resolves (response : option Response) : bool :=
  match response with
  | Some r => ok r && match json r with Some _ => true | None => false end
  | None => false
  end.

(** What the store holds under the key of a replayed record once the loop is
    over: the record marked synced when the replay resolved, else what it
    held before. *)
Definition settled_in (before after : ActionStore.t) (att : Attempt) : Prop :=
  ActionStore.get (QueuedAction.id (attempted att)) after
  = if resolves (outcome att)
    then Some (QueuedAction.mark_synced (attempted att))
    else ActionStore.get (QueuedAction.id (attempted att)) before.

Section Manager.
Context {Data Net : Type}.
(** [fetch(url, init)] against the network *)
Variable fetch : Net -> Replay -> option Response * Net.
(** the content of the page's [meta[name=csrf-token]], when there is one *)
Variable csrf_meta : option string.

(** The fields of the manager that its data and sync methods read.
    [db] is [None] until [initIndexedDB] has resolved. *)
Record t := mk {
  db : option (Db.t Data);
  isOnline : bool
}.

Definition with_db (m : t) (d : Db.t Data) : t :=
  {| db := Some d; isOnline := isOnline m |}.

(** [window] events *)
Definition on_offline (m : t) : t := {| db := db m; isOnline := false |}.

Definition getCSRFToken : string := default "" csrf_meta.

(** [storeOfflineAction(action)]; [now_timestamp] and [now_id] are the two
    readings of [Date.now()], [random] is [Math.random()]. *)
Definition storeOfflineAction (m : t) (action : Action.t)
    (now_timestamp now_id : Z) (random : Q) : bool * t :=
  match db m with
  | None => (false, m)
  | Some d =>
      let actionData :=
        {| QueuedAction.action := action;
           QueuedAction.timestamp := now_timestamp;
           QueuedAction.synced := false;
           QueuedAction.id := (inject_Z now_id + random)%Q |} in
      match ActionStore.add actionData (Db.offlineActions d) with
      | Some s =>
          (true, with_db m {| Db.offlineActions := s;
                              Db.cachedData := Db.cachedData d |})
      | None => (false, m)
      end
  end.

(** [getCachedData(key)]; [None] is null. *)
Definition getCachedData (m : t) (key : string) (now : Z) : option Data :=
  match db m with
  | None => None
  | Some d =>
      match Db.cachedData d !! key with
      | Some result =>
          if (CachedData.expiry result >? now)%Z
          then Some (CachedData.data result)
          else None
      | None => None
      end
  end.

(** [setCachedData(key, data, ttl = 3600000)]; [ttl = None] when the
    argument is omitted. *)
Definition setCachedData (m : t) (key : string) (data : Data) (ttl : option Z)
    (now_timestamp now_expiry : Z) : bool * t :=
  let ttl := default 3600000%Z ttl in
  match db m with
  | None => (false, m)
  | Some d =>
      let cacheData :=
        {| CachedData.key := key;
           CachedData.data := data;
           CachedData.timestamp := now_timestamp;
           CachedData.expiry := (now_expiry + ttl)%Z |} in
      (true, with_db m {| Db.offlineActions := Db.offlineActions d;
                          Db.cachedData := <[key := cacheData]> (Db.cachedData d) |})
  end.

(** [getOfflineData(type)] *)
Definition getOfflineData (m : t) (type : string) (now : Z) : option Data :=
  getCachedData m ("offline_" +:+ type) now.

Definition isOffline (m : t) : bool := negb (isOnline m).

(** [action.method || 'POST'] *)
Definition method_or_POST (o : option string) : string :=
  match o with
  | Some s => if String.eqb s "" then "POST" else s
  | None => "POST"
  end.

Definition sync_request (action : QueuedAction.t) : Replay :=
  let a := QueuedAction.action action in
  {| replay_url := Action.url a;
     replay_method := method_or_POST (Action.method a);
     replay_headers :=
       spread [ ("Content-Type", "application/json");
                ("X-CSRFToken", getCSRFToken) ]
              (Action.headers a);
     replay_body := Action.body a |}.

(** [syncSingleAction(action)]: the first component is the value the promise
    resolves with, [None] when it rejects (network error, a response that
    is not ok, or a body that is not JSON). *)
Definition syncSingleAction (n : Net) (action : QueuedAction.t)
    : option JSON * Attempt * Net :=
  let '(response, n') := fetch n (sync_request action) in
  let result :=
    match response with
    | None => None
    | Some r => if negb (ok r) then None else json r
    end in
  (result, {| attempted := action; sent := sync_request action; outcome := response |}, n').

(** The [for ... of] loop of [syncOfflineData] over the records read before
    the loop started. *)
Fixpoint sync_loop (unsyncedActions : list QueuedAction.t)
    (store : ActionStore.t) (n : Net)
    : ActionStore.t * Net * list Attempt :=
  match unsyncedActions with
  | [] => (store, n, [])
  | action :: rest =>
      let '(result, attempt, n1) := syncSingleAction n action in
      let store1 :=
        match result with
        | Some _ => ActionStore.put (QueuedAction.mark_synced action) store
        | None => store
        end in
      let '(store2, n2, attempts) := sync_loop rest store1 n1 in
      (store2, n2, attempt :: attempts)
  end.

(** [syncOfflineData()]: the manager and the network afterwards, and the
    replays in the order they were issued. *)
Definition syncOfflineData (m : t) (n : Net) : t * Net * list Attempt :=
  if negb (isOnline m) then (m, n, [])
  else
    match db m with
    | None => (m, n, [])
    | Some d =>
        let unsyncedActions := ActionStore.getAll_synced false (Db.offlineActions d) in
        let '(store, n', attempts) := sync_loop unsyncedActions (Db.offlineActions d) n in
        (with_db m {| Db.offlineActions := store; Db.cachedData := Db.cachedData d |},
         n', attempts)
    end.


(** The queue as a reader of the store sees it *)
Definition queue (m : t) : ActionStore.t :=
  match db m with
  | Some d => Db.offlineActions d
  | None => []
  end.

End Manager.

Arguments t : clear implicits.
Arguments mk {Data}.
Arguments db {Data}.
Arguments isOnline {Data}.

End OfflineManager.

(** ** The route classification as the specification words it *)

(** The specification lists five rule classes in order of precedence and lets
    the first one that matches decide. *)
Module RouteSpec.
Import ServiceWorker.

Inductive RuleClass :=
| NetworkFirstRule
| CacheableApiRule
| CacheFirstRule
| StaticAssetRule
| DefaultRule.

Definition rank (c : RuleClass) : nat :=
  match c with
  | NetworkFirstRule => 0
  | CacheableApiRule => 1
  | CacheFirstRule => 2
  | StaticAssetRule => 3
  | DefaultRule => 4
  end.

Definition prefix_of_some (routes : list string) (path : string) : Prop :=
  exists route, In route routes /\ Js.startsWith path route = true.

Definition matches (c : RuleClass) (path : string) : Prop :=
  match c with
  | NetworkFirstRule => prefix_of_some NETWORK_FIRST_ROUTES path
  | CacheableApiRule => prefix_of_some CACHEABLE_API_ROUTES path
  | CacheFirstRule => prefix_of_some CACHE_FIRST_ROUTES path
  | StaticAssetRule => In path STATIC_ASSETS
  | DefaultRule => True
  end.

(** [c] is the first class, in precedence order, that matches [path]. *)
Definition selects (path : string) (c : RuleClass) : Prop :=
  matches c path /\ forall c', (rank c' < rank c)%nat -> ~ matches c' path.

Definition treatment (c : RuleClass) : Handler :=
  match c with
  | NetworkFirstRule => NetworkFirst
  | CacheableApiRule => StaleWhileRevalidate
  | CacheFirstRule => CacheFirst
  | StaticAssetRule => CacheFirst
  | DefaultRule => StaleWhileRevalidate
  end.

(** The listener intercepts the request. *)
Definition intercepted (request : Request) : Prop :=
  method request = "GET" /\ protocol (url request) <> "chrome-extension:".

End RouteSpec.

(** ** Sample inputs *)

(** Concrete requests, worlds and stores on which the statements below are
    evaluated. *)
Module Sample.
Import ServiceWorker.

Definition app (path : string) : URL :=
  {| protocol := "https:"; host := "ficore.africa"; pathname := path; search := "" |}.

Definition get (path : string) (acc : option string) : Request :=
  {| method := "GET"; url := app path; accept := acc |}.

Definition login_page : Request := get "/users/login" (Some "text/html").
Definition dashboard_page : Request :=
  get "/dashboard/" (Some "text/html,application/xhtml+xml").
Definition bills_json : Request := get "/bills/list" (Some "application/json").
Definition home_page : Request := get "/general/home" (Some "text/html").
Definition stylesheet : Request := get "/static/css/styles.css" (Some "text/css,*/*").
Definition other_page : Request := get "/about" (Some "text/html").

(** A GET whose scheme is neither http nor https nor chrome-extension. *)
Definition extension_script : Request :=
  {| method := "GET";
     url := {| protocol := "moz-extension:"; host := "4f1c"; pathname := "/content.js";
               search := "" |};
     accept := Some "*/*" |}.

Definition post_bill : Request :=
  {| method := "POST"; url := app "/bills/new"; accept := Some "application/json" |}.

Definition page (s : Z) : Response :=
  {| status := s; content_type := Some "text/html"; body := PlainText "<html>" |}.

(** No network, nothing cached. *)
Definition offline_world : World :=
  {| caches := []; network := fun _ => None; now := 1700000000000;
     origin := "https://ficore.africa" |}.

(** The network answers every request with a fresh page; an older copy of
    the login page sits in the dynamic cache. *)
Definition online_world : World :=
  {| caches := [ (DYNAMIC_CACHE, {[ href (app "/users/login") := page 203 ]}) ];
     network := fun _ => Some (page 200);
     now := 1700000000000;
     origin := "https://ficore.africa" |}.

(** Cache storage left behind by version v2.0, next to the current one. *)
Definition old_and_new : CacheStorage.t :=
  [ ("ficore-static-v2.0", {[ href (app "/static/css/styles.css") := page 200 ]});
    ("ficore-dynamic-v2.0", ∅);
    (STATIC_CACHE, {[ href (app "/static/css/styles.css") := page 200 ]});
    ("ficore-api-v2.0", ∅);
    (API_CACHE, ∅) ].

(** A server for replays. The network state counts the requests seen. The
    JSON API accepts bills, the form endpoint answers 200 with a page, the
    budget API fails with 500, and nothing else is reachable. *)
Definition server (n : nat) (r : Replay) : option Response * nat :=
  (if String.eqb (replay_url r) "/api/bills" then
     Some {| status := 200; content_type := Some "application/json";
             body := JsonText (JObj [("success", JBool true)]) |}
   else if String.eqb (replay_url r) "/bills/new" then Some (page 200)
   else if String.eqb (replay_url r) "/api/budget" then
     Some {| status := 500; content_type := Some "application/json";
             body := JsonText (JObj [("error", JStr "server error")]) |}
   else None,
   S n).

Definition write (t u : string) : Action.t :=
  {| Action.type := t; Action.url := u; Action.method := Some "POST";
     Action.headers := []; Action.body := "amount=100" |}.

Definition save_bill : Action.t := write "save_bill" "/api/bills".
Definition save_budget : Action.t := write "save_budget" "/api/budget".

Definition queued (a : Action.t) (ts : Z) (k : Q) (s : bool) : QueuedAction.t :=
  {| QueuedAction.action := a; QueuedAction.timestamp := ts;
     QueuedAction.synced := s; QueuedAction.id := k |}.

(** An initialised manager, online, with empty stores. *)
Definition fresh : OfflineManager.t Z :=
  {| OfflineManager.db := Some {| Db.offlineActions := []; Db.cachedData := ∅ |};
     OfflineManager.isOnline := true |}.

(** A manager whose database has not been opened. *)
Definition uninitialised : OfflineManager.t Z :=
  {| OfflineManager.db := None; OfflineManager.isOnline := true |}.

Definition with_queue (online : bool) (s : ActionStore.t) : OfflineManager.t Z :=
  {| OfflineManager.db := Some {| Db.offlineActions := s; Db.cachedData := ∅ |};
     OfflineManager.isOnline := online |}.

(** A budget write that the server rejects, followed by a bill it accepts. *)
Definition two_pending : ActionStore.t :=
  [ queued save_budget 1000 (2001 # 2) false;
    queued save_bill 2000 (4001 # 2) false ].

End Sample.

(** ** The install and sync listeners of the service worker *)

Module Lifecycle.
Import ServiceWorker.

(** [new Request(asset)] for a path of [STATIC_ASSETS], resolved against the
    location of the worker. The paths of the list carry no query. *)
Definition asset_request (location : URL) (asset : string) : Request :=
  {| method := "GET";
     url := {| protocol := protocol location; host := host location;
               pathname := asset; search := "" |};
     accept := Some "*/*" |}.

(** The fetches of [cache.addAll]: [None] as soon as one request fails or is
    answered with a response that is not ok. *)
Fixpoint fetch_all (network : Request -> option Response) (requests : list Request)
    : option (list (Request * Response)) :=
  match requests with
  | [] => Some []
  | request :: rest =>
      match network request with
      | Some r =>
          if ok r then
            match fetch_all network rest with
            | Some fetched => Some ((request, r) :: fetched)
            | None => None
            end
          else None
      | None => None
      end
  end.

(** [cache.addAll(requests)] on the cache called [name]: all or nothing. *)
Definition addAll (name : string) (requests : list Request)
    (network : Request -> option Response) (cs : CacheStorage.t)
    : option CacheStorage.t :=
  match fetch_all network requests with
  | Some fetched =>
      Some (fold_left
              (fun acc qr => CacheStorage.put name (href (url (fst qr))) (snd qr) acc)
              fetched cs)
  | None => None
  end.

(** The install listener: the cache storage afterwards and whether
    [self.skipWaiting()] was called. The three [caches.open] are issued
    before anything settles; a rejected [addAll] ends in the [catch]. *)
Definition install (location : URL) (network : Request -> option Response)
    (cs : CacheStorage.t) : CacheStorage.t * bool :=
  let opened :=
    CacheStorage.open API_CACHE
      (CacheStorage.open DYNAMIC_CACHE (CacheStorage.open STATIC_CACHE cs)) in
  match addAll STATIC_CACHE (map (asset_request location) STATIC_ASSETS) network opened with
  | Some cs' => (cs', true)
  | None => (opened, false)
  end.

Section SyncEvent.
Context {Net : Type}.
Variable fetch : Net -> Replay -> option Response * Net.


End SyncEvent.

End Lifecycle.

(** ** The public methods of the offline manager *)

Module ManagerApi.
Import OfflineManager.


(** The form fields [handleOfflineForm] reads. *)
Record Form := mkForm {
  form_id : string;
  form_action : string;
  form_method : string;                 (* "get" or "post" *)
  form_actionType : option string       (* form.dataset.actionType *)
}.

(** [c.toUpperCase()] on an ASCII letter *)
Definition upper (c : Ascii.ascii) : Ascii.ascii :=
  let n := Ascii.nat_of_ascii c in
  if ((97 <=? n) && (n <=? 122))%nat then Ascii.ascii_of_nat (n - 32) else c.

(** [s.toUpperCase()] on ASCII text *)
Fixpoint toUpperCase (s : string) : string :=
  match s with
  | EmptyString => EmptyString
  | String c rest => String (upper c) (toUpperCase rest)
  end.

(** [o[k]] on an object kept as a key/value list *)
Fixpoint obj_get (k : string) (o : list (string * string)) : option string :=
  match o with
  | [] => None
  | (k', v) :: rest => if String.eqb k' k then Some v else obj_get k rest
  end.

Section Api.
Context {Data Payload Fields : Type}.
(** [JSON.stringify] on the payload of [saveForLater] and on the object built
    from the entries of a form *)
Variable stringify_payload : Payload -> string.
Variable stringify_fields : Fields -> string.




End Api.

End ManagerApi.

(** ** More sample inputs *)

Module MoreSamples.
Import ServiceWorker.


(** The location of the worker script *)
Definition worker_location : URL := Sample.app "/static/service-worker.js".

(** A network on which every request is answered with the same page, and one
    on which the manifest is missing. *)
Definition all_ok : Request -> option Response := fun _ => Some (Sample.page 200).

Definition manifest_missing : Request -> option Response :=
  fun request =>
    if String.eqb (pathname (url request)) "/static/manifest.json"
    then Some (Sample.page 404)
    else Some (Sample.page 200).



(** A bill form without an action type of its own. *)
Definition new_bill_form : ManagerApi.Form :=
  {| ManagerApi.form_id := "bill-form";
     ManagerApi.form_action := "/bills/new";
     ManagerApi.form_method := "post";
     ManagerApi.form_actionType := None |}.


(** Cache storage as version v2.0 left it. *)
Definition old_only : CacheStorage.t :=
  [ ("ficore-static-v2.0",
     {[ href (Sample.app "/static/css/styles.css") := Sample.page 203 ]});
    ("ficore-dynamic-v2.0", ∅) ].

End MoreSamples.

(** ** static/js/offline-forms.js and static/js/offline-dashboard.js *)

(** The parts of the forms handler and of the dashboard that call the offline
    manager or decide on time. What they do to the page is left out. *)
Module OfflineForms.
Import OfflineManager ManagerApi.

(** An integer in a template literal *)
Definition string_of_Z (z : Z) : string := NilZero.string_of_int (Z.to_int z).

(** The object built from the entries of a form, with the metadata the
    handler adds: text fields and numbers. *)
Inductive FieldValue :=
| FStr (s : string)
| FNum (n : Z).

Abbreviation Fields := (list (string * FieldValue)).

(** [o[k] = v] *)
Fixpoint set_field (k : string) (v : FieldValue) (o : Fields) : Fields :=
  match o with
  | [] => [(k, v)]
  | (k', v') :: rest =>
      if String.eqb k' k then (k', v) :: rest else (k', v') :: set_field k v rest
  end.

(** [o[k]] *)
Fixpoint get_field (k : string) (o : Fields) : option FieldValue :=
  match o with
  | [] => None
  | (k', v) :: rest => if String.eqb k' k then Some v else get_field k rest
  end.

(** An item of [localStorage] as [JSON.parse] and the destructuring of
    [restoreFormState] see it: what [saveFormState] wrote, or anything else. *)
Inductive Item :=
| FormState (data : Fields) (timestamp : Z)
| Other (text : string).

(** [`form_state_${form.id || form.action}`] *)
Definition state_key (form : Form) : string :=
  "form_state_" +:+ (if String.eqb (form_id form) "" then form_action form else form_id form).

Definition saveFormState (ls : gmap string Item) (form : Form) (data : Fields) (now : Z)
    : gmap string Item :=
  <[state_key form := FormState data now]> ls.

(** [restoreFormState(form)]: the data handed to [populateForm], if any *)
Definition restoreFormState (ls : gmap string Item) (form : Form) (now : Z)
    : option Fields :=
  match ls !! state_key form with
  | Some (FormState data timestamp) =>
      if (now - timestamp <? 24 * 60 * 60 * 1000)%Z then Some data else None
  | Some (Other _) => None
  | None => None
  end.

Definition clearFormState (ls : gmap string Item) (form : Form) : gmap string Item :=
  delete (state_key form) ls.

(** The readings of [Date.now()] and [Math.random()] of one submission, in
    the order of the call sites that may take them. *)
Record Reads := mkReads {
  meta_now : Z;          (* _timestamp *)
  formid_now : Z;        (* `form_${Date.now()}` *)
  store_timestamp : Z;   (* storeOfflineAction: timestamp *)
  store_id : Z;          (* storeOfflineAction: id *)
  store_random : Q;      (* storeOfflineAction: Math.random() *)
  state_now : Z          (* saveFormState *)
}.

(** What a submission reads and writes besides the network. *)
Record Page (Data : Type) := mkPage {
  offlineManager : option (OfflineManager.t Data);   (* window.offlineManager *)
  localStorage : gmap string Item;
  onLine : bool                                       (* navigator.onLine *)
}.
Arguments mkPage {Data}.
Arguments offlineManager {Data}.
Arguments localStorage {Data}.
Arguments onLine {Data}.

(** [formData._actionType] as the type of the stored action *)
Definition action_type (formData : Fields) : string :=
  match get_field "_actionType" formData with
  | Some (FStr s) => s
  | Some (FNum n) => string_of_Z n
  | None => ""
  end.

Section Handler.
Context {Data Net : Type}.
Variable fetch : Net -> Replay -> option Response * Net.
Variable csrf_meta : option string.
Variable stringify : Fields -> string.

(** [handleOfflineSubmission(form, formData)]; without a manager the call
    throws and the [catch] answers false. *)
Definition handleOfflineSubmission (page : Page Data) (form : Form) (formData : Fields)
    (reads : Reads) : bool * Page Data :=
  match offlineManager page with
  | None => (false, page)
  | Some m =>
      let '(success, m1) :=
        storeOfflineAction m
          {| Action.type := action_type formData;
             Action.url := form_action form;
             Action.method := Some (toUpperCase (form_method form));
             Action.headers := [];
             Action.body := stringify formData |}
          (store_timestamp reads) (store_id reads) (store_random reads) in
      if success then
        (true,
         {| offlineManager := Some m1;
            localStorage := saveFormState (localStorage page) form formData (state_now reads);
            onLine := onLine page |})
      else
        (false,
         {| offlineManager := Some m1;
            localStorage := localStorage page;
            onLine := onLine page |})
  end.

Definition submit_request (form : Form) (formData : Fields) : Replay :=
  {| replay_url := form_action form;
     replay_method := form_method form;
     replay_headers := [ ("Content-Type", "application/json");
                         ("X-CSRFToken", default "" csrf_meta) ];
     replay_body := stringify formData |}.

(** [handleOnlineSubmission(form, formData)] *)
Definition handleOnlineSubmission (page : Page Data) (form : Form) (formData : Fields)
    (reads : Reads) (n : Net) : bool * Page Data * Net :=
  let '(response, n1) := fetch n (submit_request form formData) in
  let caught :=
    if negb (onLine page)
    then (handleOfflineSubmission page form formData reads, n1)
    else ((false, page), n1) in
  match response with
  | Some r =>
      match json r with
      | Some _ =>
          if ok r then
            (true,
             {| offlineManager := offlineManager page;
                localStorage := clearFormState (localStorage page) form;
                onLine := onLine page |},
             n1)
          else (false, page, n1)
      | None => caught
      end
  | None => caught
  end.

(** [handleFormSubmission(form)]; [entries] is [Object.fromEntries(formData)]. *)
Definition formObject (form : Form) (entries : Fields) (reads : Reads) : Fields :=
  set_field "_actionType"
    (FStr match form_actionType form with
          | Some s => if String.eqb s "" then "form_submission" else s
          | None => "form_submission"
          end)
    (set_field "_formId"
       (FStr (if String.eqb (form_id form) ""
              then "form_" +:+ string_of_Z (formid_now reads)
              else form_id form))
       (set_field "_timestamp" (FNum (meta_now reads)) entries)).

Definition handleFormSubmission (page : Page Data) (form : Form) (entries : Fields)
    (reads : Reads) (n : Net) : bool * Page Data * Net :=
  let formObject := formObject form entries reads in
  match offlineManager page with
  | Some m =>
      if isOffline m
      then (handleOfflineSubmission page form formObject reads, n)
      else handleOnlineSubmission page form formObject reads n
  | None => handleOnlineSubmission page form formObject reads n
  end.

End Handler.

End OfflineForms.

Module OfflineDashboard.
Import OfflineForms.

(** [getTimeAgo(date)]; [now] is the reading of [new Date()], both in
    milliseconds. *)
Definition getTimeAgo (now date : Z) : string :=
  let diff := (now - date)%Z in
  let minutes := (diff / 60000)%Z in
  let hours := (minutes / 60)%Z in
  let days := (hours / 24)%Z in
  if (0 <? days)%Z
  then string_of_Z days +:+ " day" +:+ (if (1 <? days)%Z then "s" else "") +:+ " ago"
  else if (0 <? hours)%Z
  then string_of_Z hours +:+ " hour" +:+ (if (1 <? hours)%Z then "s" else "") +:+ " ago"
  else if (0 <? minutes)%Z
  then string_of_Z minutes +:+ " minute" +:+ (if (1 <? minutes)%Z then "s" else "") +:+ " ago"
  else "just now".

End OfflineDashboard.

(** ** Sample submissions *)

Module FormSamples.
Import ManagerApi OfflineForms.

(** A stand-in for [JSON.stringify] on form objects *)
Definition show_fields (fields : Fields) : string :=
  match get_field "amount" fields with
  | Some (FStr s) => s
  | _ => "{}"
  end.

Definition bill_entries : Fields := [("amount", FStr "100")].

Definition reads : Reads :=
  {| meta_now := 5000; formid_now := 5000; store_timestamp := 5000; store_id := 5000;
     store_random := 1 # 2; state_now := 5001 |}.

(** The manager is offline, the browser agrees. *)
Definition offline_page : Page Z :=
  {| offlineManager := Some (Sample.with_queue false []);
     localStorage := ∅;
     onLine := false |}.

(** The manager and the browser both report a connection. *)
Definition online_page : Page Z :=
  {| offlineManager := Some Sample.fresh; localStorage := ∅; onLine := true |}.

(** A form whose action no server answers. *)
Definition lost_form : Form :=
  {| form_id := ""; form_action := "/nowhere"; form_method := "post";
     form_actionType := Some "save_bill" |}.

End FormSamples.

(** * Properties of the service worker *)

Section Strings.

Lemma strict_eq_true a b : Js.strict_eq a b = true <-> a = b.
Proof. unfold Js.strict_eq. apply String.eqb_eq. Qed.

Lemma strict_eq_false a b : Js.strict_eq a b = false <-> a <> b.
Proof. unfold Js.strict_eq. apply String.eqb_neq. Qed.

Lemma some_prefix routes path :
  Js.some routes (fun route => Js.startsWith path route) = true
  <-> RouteSpec.prefix_of_some routes path.
Proof.
  unfold Js.some, RouteSpec.prefix_of_some. rewrite existsb_exists.
  split; intros (route & Hin & Hp); exists route; auto.
Qed.

Lemma some_exact assets path :
  Js.some assets (fun asset => Js.strict_eq path asset) = true <-> In path assets.
Proof.
  unfold Js.some. rewrite existsb_exists. split.
  - intros (a & Hin & He). apply strict_eq_true in He. now subst.
  - intros Hin. exists path. split; [assumption | now apply strict_eq_true].
Qed.

Lemma array_includes_In xs x : Js.array_includes xs x = true <-> In x xs.
Proof.
  unfold Js.array_includes. rewrite existsb_exists. split.
  - intros (a & Hin & He). apply strict_eq_true in He. now subst.
  - intros Hin. exists x. split; [assumption | now apply strict_eq_true].
Qed.

End Strings.

Section Dispatch.
Import ServiceWorker RouteSpec.

Lemma listener_guard request :
  intercepted request ->
  negb (Js.strict_eq (method request) "GET")
  || Js.strict_eq (protocol (url request)) "chrome-extension:" = false.
Proof.
  intros [Hm Hp]. apply orb_false_iff. split.
  - apply negb_false_iff. now apply strict_eq_true.
  - now apply strict_eq_false.
Qed.

Lemma rank_inj c c' : rank c = rank c' -> c = c'.
Proof. destruct c, c'; simpl; intros H; congruence. Qed.

Lemma selects_unique path c c' : selects path c -> selects path c' -> c = c'.
Proof.
  intros [Hm Hfirst] [Hm' Hfirst'].
  apply rank_inj.
  destruct (lt_eq_lt_dec (rank c) (rank c')) as [[Hlt | Heq] | Hgt].
  - exfalso. exact (Hfirst' c Hlt Hm).
  - exact Heq.
  - exfalso. exact (Hfirst c' Hgt Hm').
Qed.

(** The class the listener's chain of tests stops at. *)
Lemma listener_selects request :
  intercepted request ->
  exists c, selects (pathname (url request)) c
            /\ fetch_listener request = Some (treatment c).
Proof.
  intros Hi. unfold fetch_listener. cbv zeta.
  rewrite (listener_guard _ Hi).
  set (path := pathname (url request)).
  destruct (Js.some NETWORK_FIRST_ROUTES _) eqn:Hnf.
  { exists NetworkFirstRule. split; [split |]; [now apply some_prefix | | reflexivity].
    intros c' Hlt. destruct c'; simpl in Hlt; lia. }
  destruct (Js.some CACHEABLE_API_ROUTES _) eqn:Hapi.
  { exists CacheableApiRule. split; [split |]; [now apply some_prefix | | reflexivity].
    intros c' Hlt Hc'. destruct c'; simpl in Hlt; try lia.
    apply some_prefix in Hc'. fold path in Hc'. congruence. }
  destruct (Js.some CACHE_FIRST_ROUTES _) eqn:Hcf.
  { exists CacheFirstRule. split; [split |]; [now apply some_prefix | | reflexivity].
    intros c' Hlt Hc'. destruct c'; simpl in Hlt; try lia;
      apply some_prefix in Hc'; fold path in Hc'; congruence. }
  destruct (Js.some STATIC_ASSETS _) eqn:Hst.
  { exists StaticAssetRule. split; [split |]; [now apply some_exact | | reflexivity].
    intros c' Hlt Hc'. destruct c'; simpl in Hlt; try lia;
      apply some_prefix in Hc'; fold path in Hc'; congruence. }
  exists DefaultRule. split; [split |]; [exact I | | reflexivity].
  intros c' Hlt Hc'. destruct c'; simpl in Hlt; try lia.
  1-3: apply some_prefix in Hc'; fold path in Hc'; congruence.
  apply some_exact in Hc'. fold path in Hc'. congruence.
Qed.

(** C5. For every intercepted GET request exactly one rule class is selected,
    the first in the order network-first, cacheable API, cache-first, exact
    static asset, default; the listener responds with the handler of that
    class: network-first, stale-while-revalidate, cache-first, cache-first
    and stale-while-revalidate respectively. *)
Theorem classification_first_match_wins (request : Request) :
  intercepted request ->
  exists c,
    selects (pathname (url request)) c
    /\ (forall c', selects (pathname (url request)) c' -> c' = c)
    /\ fetch_listener request = Some (treatment c).
Proof.
  intros Hi. destruct (listener_selects request Hi) as (c & Hsel & Hl).
  exists c. split; [assumption |]. split; [| assumption].
  intros c' Hsel'. exact (selects_unique _ _ _ Hsel' Hsel).
Qed.

End Dispatch.

Section DispatchExamples.
Import ServiceWorker Sample.

Example login_is_network_first : fetch_listener login_page = Some NetworkFirst.
Proof. reflexivity. Qed.

Example dashboard_is_stale_while_revalidate :
  fetch_listener dashboard_page = Some StaleWhileRevalidate.
Proof. reflexivity. Qed.

Example home_is_cache_first : fetch_listener home_page = Some CacheFirst.
Proof. reflexivity. Qed.

Example stylesheet_is_cache_first : fetch_listener stylesheet = Some CacheFirst.
Proof. reflexivity. Qed.

Example unlisted_is_stale_while_revalidate :
  fetch_listener other_page = Some StaleWhileRevalidate.
Proof. reflexivity. Qed.

Example post_passes_through : fetch_listener post_bill = None.
Proof. reflexivity. Qed.

Lemma classification_first_match_wins_witness :
  RouteSpec.intercepted login_page
  /\ exists c,
       RouteSpec.selects (pathname (url login_page)) c
       /\ (forall c', RouteSpec.selects (pathname (url login_page)) c' -> c' = c)
       /\ fetch_listener login_page = Some (RouteSpec.treatment c).
Proof.
  assert (Hi : RouteSpec.intercepted login_page)
    by (split; [reflexivity | discriminate]).
  split; [exact Hi | exact (classification_first_match_wins login_page Hi)].
Defined.

End DispatchExamples.

Section PassThrough.
Import ServiceWorker.

(** C9, as the code has it. The listener leaves a request alone exactly when
    it is not a GET or its scheme is chrome-extension; every other GET,
    whatever its scheme, is answered by a handler. *)
Theorem pass_through_iff (w : World) (request : Request) :
  on_fetch w request = None
  <-> (method request <> "GET" \/ protocol (url request) = "chrome-extension:").
Proof.
  unfold on_fetch, fetch_listener. cbv zeta.
  destruct (Js.strict_eq (method request) "GET") eqn:Hm;
    destruct (Js.strict_eq (protocol (url request)) "chrome-extension:") eqn:Hp;
    simpl.
  - apply strict_eq_true in Hp. tauto.
  - apply strict_eq_true in Hm. apply strict_eq_false in Hp.
    split; [| tauto].
    repeat match goal with
           | |- context [if ?b then _ else _] => destruct b
           end; discriminate.
  - apply strict_eq_false in Hm. tauto.
  - apply strict_eq_false in Hm. tauto.
Qed.

(** C9, as stated, fails: the GET for moz-extension://4f1c/content.js of
    [Sample.extension_script] has a scheme that is neither http nor https, and
    the listener answers it with stale-while-revalidate. *)
Lemma non_http_scheme_is_intercepted :
  ~ (forall (w : World) (request : Request),
       (method request <> "GET"
        \/ (protocol (url request) <> "http:" /\ protocol (url request) <> "https:")) ->
       on_fetch w request = None).
Proof.
  intros H.
  assert (Hs : fetch_listener Sample.extension_script = Some StaleWhileRevalidate)
    by reflexivity.
  specialize (H Sample.offline_world Sample.extension_script).
  unfold on_fetch in H. rewrite Hs in H.
  discriminate H. right. split; discriminate.
Qed.

End PassThrough.

Section NetworkFirstHandler.
Import ServiceWorker.



(** The cache is read only on the path where the fetch rejected. *)
Lemma network_first_cache_only_after_failure (w : World) (request : Request) r :
  fst (handleNetworkFirst w request) = JsResponse r ->
  network w request <> Some r ->
  network w request = None.
Proof.
  unfold handleNetworkFirst. destruct (network w request) as [nr |]; [| reflexivity].
  simpl. intros [= ->] Hne. now elim Hne.
Qed.

End NetworkFirstHandler.

Section Activation.
Import ServiceWorker.

Lemma find_delete name n cs :
  CacheStorage.find name (CacheStorage.delete n cs)
  = if String.eqb n name then None else CacheStorage.find name cs.
Proof.
  induction cs as [| [n' c] rest IH]; simpl.
  - now destruct (String.eqb n name).
  - destruct (String.eqb n' n) eqn:Hn'.
    + apply String.eqb_eq in Hn'. subst n'. rewrite IH.
      now destruct (String.eqb n name).
    + simpl. rewrite IH.
      destruct (String.eqb n' name) eqn:Hname; [| reflexivity].
      apply String.eqb_eq in Hname. subst n'.
      destruct (String.eqb n name) eqn:Hnn; [| reflexivity].
      apply String.eqb_eq in Hnn. subst n. rewrite String.eqb_refl in Hn'. discriminate.
Qed.

Lemma find_cleanup name names cs :
  CacheStorage.find name (fold_left cleanup_step names cs)
  = if Js.array_includes names name && negb (Js.array_includes cacheWhitelist name)
    then None else CacheStorage.find name cs.
Proof.
  revert cs. induction names as [| n names IH]; intros cs; [reflexivity |].
  cbn [fold_left]. rewrite IH.
  change (Js.array_includes (n :: names) name)
    with (String.eqb name n || Js.array_includes names name).
  unfold cleanup_step.
  destruct (String.eqb name n) eqn:Hn.
  - apply String.eqb_eq in Hn. subst n.
    destruct (Js.array_includes cacheWhitelist name);
      destruct (Js.array_includes names name); cbn [negb andb orb];
      rewrite ?find_delete, ?String.eqb_refl; reflexivity.
  - rewrite orb_false_l.
    destruct (Js.array_includes names name && _); [reflexivity |].
    destruct (negb (Js.array_includes cacheWhitelist n)); [| reflexivity].
    rewrite find_delete. rewrite String.eqb_sym, Hn. reflexivity.
Qed.

Lemma find_not_in_keys name cs :
  Js.array_includes (CacheStorage.keys cs) name = false -> CacheStorage.find name cs = None.
Proof.
  induction cs as [| [n c] rest IH]; simpl; [reflexivity |].
  unfold Js.strict_eq. rewrite String.eqb_sym.
  destruct (String.eqb n name); simpl; [discriminate | exact IH].
Qed.

Lemma find_in_keys name cs :
  In name (CacheStorage.keys cs) -> CacheStorage.find name cs <> None.
Proof.
  induction cs as [| [n c] rest IH]; simpl; [tauto |].
  intros [-> | Hin].
  - now rewrite String.eqb_refl.
  - destruct (String.eqb n name); [discriminate | now apply IH].
Qed.

Lemma find_activate name cs :
  CacheStorage.find name (fst (activate cs))
  = if Js.array_includes cacheWhitelist name then CacheStorage.find name cs else None.
Proof.
  unfold activate. simpl fst.
  rewrite find_cleanup.
  destruct (Js.array_includes cacheWhitelist name); simpl.
  - now rewrite andb_false_r.
  - rewrite andb_true_r.
    destruct (Js.array_includes (CacheStorage.keys cs) name) eqn:Hk; [reflexivity |].
    now apply find_not_in_keys.
Qed.

Lemma other_version_not_whitelisted v :
  v <> CACHE_VERSION ->
  Js.array_includes cacheWhitelist ("ficore-static-" +:+ v) = false
  /\ Js.array_includes cacheWhitelist ("ficore-dynamic-" +:+ v) = false
  /\ Js.array_includes cacheWhitelist ("ficore-api-" +:+ v) = false.
Proof.
  intros Hv.
  repeat split; apply not_true_is_false; rewrite array_includes_In;
    intros Hin; cbn in Hin;
    repeat (destruct Hin as [Hin | Hin]; [try discriminate Hin |]);
    try contradiction;
    injection Hin as Hin; apply Hv; symmetry; exact Hin.
Qed.

(** C6. Once the activate listener has run, a namespace outside the whitelist
    of the three current-version names is no longer in the storage, neither
    by name nor in the list of keys, in particular none of the three names
    built from any other version; each whitelisted namespace is what it was
    before. *)
Theorem activation_evicts_other_versions (cs : CacheStorage.t) :
  (forall name, ~ In name cacheWhitelist ->
                CacheStorage.find name (fst (activate cs)) = None
                /\ ~ In name (CacheStorage.keys (fst (activate cs))))
  /\ (forall v, v <> CACHE_VERSION ->
                CacheStorage.find ("ficore-static-" +:+ v) (fst (activate cs)) = None
                /\ CacheStorage.find ("ficore-dynamic-" +:+ v) (fst (activate cs)) = None
                /\ CacheStorage.find ("ficore-api-" +:+ v) (fst (activate cs)) = None)
  /\ (forall name, In name cacheWhitelist ->
                   CacheStorage.find name (fst (activate cs)) = CacheStorage.find name cs).
Proof.
  split; [| split].
  - intros name Hn.
    assert (Hgone : CacheStorage.find name (fst (activate cs)) = None).
    { rewrite find_activate.
      destruct (Js.array_includes cacheWhitelist name) eqn:Hw; [| reflexivity].
      apply array_includes_In in Hw. contradiction. }
    split; [exact Hgone |].
    intros Hin. exact (find_in_keys _ _ Hin Hgone).
  - intros v Hv. destruct (other_version_not_whitelisted v Hv) as (Hs & Hd & Ha).
    rewrite !find_activate, Hs, Hd, Ha. auto.
  - intros name Hn. rewrite find_activate.
    apply array_includes_In in Hn. now rewrite Hn.
Qed.

End Activation.

Section ActivationExamples.
Import ServiceWorker.

Example activate_keeps_current_namespaces :
  CacheStorage.keys (fst (activate Sample.old_and_new)) = [STATIC_CACHE; API_CACHE].
Proof. reflexivity. Qed.

Lemma activation_evicts_other_versions_witness :
  CacheStorage.find "ficore-static-v2.0" (fst (activate Sample.old_and_new)) = None
  /\ CacheStorage.find STATIC_CACHE (fst (activate Sample.old_and_new))
     = CacheStorage.find STATIC_CACHE Sample.old_and_new.
Proof.
  destruct (activation_evicts_other_versions Sample.old_and_new) as (_ & Hold & Hkeep).
  split.
  - apply (Hold "v2.0"). discriminate.
  - apply Hkeep. simpl. auto.
Defined.

End ActivationExamples.

Section OfflineResponses.
Import ServiceWorker.

(** The three shapes of [createOfflineResponse], once settled. *)
Lemma createOfflineResponse_settled (w : World) (request : Request) :
  (accepts request "text/html" = true ->
   settle (createOfflineResponse w request)
   = match CacheStorage.match_ (origin w +:+ "/general/home") (caches w) with
     | Some home => JsResponse home
     | None => JsResponse {| status := 200; content_type := Some "text/html";
                             body := OfflineHTML |}
     end)
  /\ (accepts request "text/html" = false ->
      accepts request "application/json" = true ->
      exists message,
        settle (createOfflineResponse w request)
        = JsResponse {| status := 200; content_type := Some "application/json";
                        body := JsonText (JObj [ ("offline", JBool true);
                                                 ("message", JStr message);
                                                 ("timestamp", JNum (now w)) ]) |})
  /\ (accepts request "text/html" = false ->
      accepts request "application/json" = false ->
      exists content text,
        settle (createOfflineResponse w request)
        = JsResponse {| status := 503; content_type := content; body := PlainText text |}).
Proof.
  unfold createOfflineResponse. repeat split.
  - intros ->. simpl. now destruct (CacheStorage.match_ _ _).
  - intros -> ->. eauto.
  - intros -> ->. eauto.
Qed.

(** With the network down and no entry for the request, the network-first
    and the cache-first handlers answer with the synthesized response. *)
Lemma network_first_offline (w : World) (request : Request) :
  network w request = None ->
  CacheStorage.match_ (href (url request)) (caches w) = None ->
  handleNetworkFirst w request = (settle (createOfflineResponse w request), caches w).
Proof. intros Hn Hc. unfold handleNetworkFirst. now rewrite Hn, Hc. Qed.

Lemma cache_first_offline (w : World) (request : Request) :
  network w request = None ->
  CacheStorage.match_ (href (url request)) (caches w) = None ->
  handleCacheFirst w request = (settle (createOfflineResponse w request), caches w).
Proof. intros Hn Hc. unfold handleCacheFirst. now rewrite Hn, Hc. Qed.

(** The stale-while-revalidate handler does not: [fetchPromise] is a promise,
    hence truthy, so [cachedResponse || fetchPromise || ...] never reaches
    [createOfflineResponse], and the promise settles with the [null] of its
    [catch]. *)
Lemma stale_while_revalidate_offline (w : World) (request : Request) :
  network w request = None ->
  CacheStorage.match_ (href (url request)) (caches w) = None ->
  handleStaleWhileRevalidate w request = (JsNull, caches w).
Proof. intros Hn Hc. unfold handleStaleWhileRevalidate. now rewrite Hn, Hc. Qed.

(** C1, on the code. The GET for /dashboard/ of [Sample.dashboard_page]
    accepts text/html and is given to stale-while-revalidate; with the
    network down and empty caches, [respondWith] receives a promise that
    settles with [null], not a response. *)
Theorem dashboard_offline_settles_with_null :
  fetch_listener Sample.dashboard_page = Some StaleWhileRevalidate
  /\ accepts Sample.dashboard_page "text/html" = true
  /\ on_fetch Sample.offline_world Sample.dashboard_page = Some (JsNull, [])
  /\ ~ is_response JsNull.
Proof.
  repeat split.
  intros [r Hr]. discriminate Hr.
Qed.

End OfflineResponses.

(** * Properties of the durable store *)

Abbreviation idOf := QueuedAction.id.

Section StoreLemmas.
Import ActionStore.

Local Open Scope Q_scope.

Lemma key_lt_true k1 k2 : key_lt k1 k2 = true <-> k1 < k2.
Proof.
  unfold key_lt. rewrite negb_true_iff. split.
  - intros H. apply Qnot_le_lt. intros Hle. apply Qle_bool_iff in Hle. congruence.
  - intros H. apply not_true_is_false. intros Hle. apply Qle_bool_iff in Hle.
    exact (Qlt_not_le _ _ H Hle).
Qed.

Lemma key_lt_false k1 k2 : key_lt k1 k2 = false <-> k2 <= k1.
Proof.
  unfold key_lt. rewrite negb_false_iff. apply Qle_bool_iff.
Qed.

Lemma Qeq_bool_trans_l k a b : a == b -> Qeq_bool k a = Qeq_bool k b.
Proof.
  intros Hab.
  destruct (Qeq_bool k a) eqn:Ha, (Qeq_bool k b) eqn:Hb; try reflexivity.
  - apply Qeq_bool_iff in Ha. apply Qeq_bool_neq in Hb. elim Hb. now rewrite Ha.
  - apply Qeq_bool_iff in Hb. apply Qeq_bool_neq in Ha. elim Ha. now rewrite Hb.
Qed.

Lemma Qeq_bool_sym_l k a : Qeq_bool k a = Qeq_bool a k.
Proof.
  destruct (Qeq_bool k a) eqn:Ha, (Qeq_bool a k) eqn:Hb; try reflexivity.
  - apply Qeq_bool_iff in Ha. apply Qeq_bool_neq in Hb. elim Hb. now symmetry.
  - apply Qeq_bool_iff in Hb. apply Qeq_bool_neq in Ha. elim Ha. now symmetry.
Qed.

Lemma get_key_eq k1 k2 s : k1 == k2 -> get k1 s = get k2 s.
Proof.
  intros Heq. induction s as [| x rest IH]; simpl; [reflexivity |].
  rewrite IH, (Qeq_bool_sym_l k1), (Qeq_bool_sym_l k2).
  now rewrite (Qeq_bool_trans_l (idOf x) _ _ Heq).
Qed.

Lemma get_put k r s :
  get k (put r s) = if Qeq_bool k (idOf r) then Some r else get k s.
Proof.
  induction s as [| x rest IH]; simpl; [reflexivity |].
  destruct (key_lt (idOf r) (idOf x)) eqn:Hlt; [reflexivity |].
  destruct (Qeq_bool (idOf r) (idOf x)) eqn:Heq; simpl.
  - apply Qeq_bool_iff in Heq. rewrite <- (Qeq_bool_trans_l k _ _ Heq).
    now destruct (Qeq_bool k (idOf r)).
  - rewrite IH.
    destruct (Qeq_bool k (idOf x)) eqn:Hx, (Qeq_bool k (idOf r)) eqn:Hr; try reflexivity.
    apply Qeq_bool_iff in Hx, Hr. apply Qeq_bool_neq in Heq.
    elim Heq. now rewrite <- Hx, <- Hr.
Qed.

Lemma In_put_inv y r s : In y (put r s) -> y = r \/ In y s.
Proof.
  induction s as [| x rest IH]; simpl.
  - intros [-> | []]. now left.
  - destruct (key_lt (idOf r) (idOf x)); [| destruct (Qeq_bool (idOf r) (idOf x))]; simpl.
    + intros [-> | [-> | H]]; auto.
    + intros [-> | H]; auto.
    + intros [-> | H]; auto. destruct (IH H); auto.
Qed.


Lemma In_put_other x r s : In x s -> ~ idOf r == idOf x -> In x (put r s).
Proof.
  induction s as [| y rest IH]; simpl; [tauto |].
  intros Hin Hne.
  destruct (key_lt (idOf r) (idOf y)); [| destruct (Qeq_bool (idOf r) (idOf y)) eqn:Heq];
    simpl.
  - tauto.
  - destruct Hin as [-> | Hin]; [| tauto].
    apply Qeq_bool_iff in Heq. contradiction.
  - destruct Hin as [-> | Hin]; auto.
Qed.

Lemma put_wf r s : wf s -> wf (put r s).
Proof.
  unfold wf. induction s as [| x rest IH]; simpl; intros Hs.
  - repeat constructor.
  - apply StronglySorted_inv in Hs. destruct Hs as [Hrest Hx].
    rewrite List.Forall_forall in Hx.
    destruct (key_lt (idOf r) (idOf x)) eqn:Hlt;
      [| destruct (Qeq_bool (idOf r) (idOf x)) eqn:Heq].
    + apply key_lt_true in Hlt. constructor.
      * constructor; [assumption | now apply List.Forall_forall].
      * constructor; [assumption |].
        apply List.Forall_forall. intros y Hy. specialize (Hx y Hy). simpl in Hx. lra.
    + apply Qeq_bool_iff in Heq. constructor; [assumption |].
      apply List.Forall_forall. intros y Hy. specialize (Hx y Hy). simpl in Hx. lra.
    + apply key_lt_false in Hlt. apply Qeq_bool_neq in Heq.
      constructor; [now apply IH |].
      apply List.Forall_forall. intros y Hy.
      destruct (In_put_inv _ _ _ Hy) as [-> | Hy']; [lra | exact (Hx y Hy')].
Qed.

Lemma add_wf r s s' : wf s -> add r s = Some s' -> wf s'.
Proof.
  unfold add. intros Hs. destruct (get (idOf r) s); [discriminate |].
  intros [= <-]. now apply put_wf.
Qed.

(** In a well-formed store a record is found under its own key. *)
Lemma get_In x s : wf s -> In x s -> get (idOf x) s = Some x.
Proof.
  unfold wf. induction s as [| y rest IH]; simpl; [tauto |].
  intros Hs Hin. apply StronglySorted_inv in Hs. destruct Hs as [Hrest Hy].
  destruct Hin as [-> | Hin].
  - now rewrite Qeq_bool_refl.
  - rewrite List.Forall_forall in Hy. specialize (Hy x Hin). simpl in Hy.
    destruct (Qeq_bool (idOf x) (idOf y)) eqn:Heq; [| now apply IH].
    apply Qeq_bool_iff in Heq. lra.
Qed.

Lemma get_not_In k s : (forall x, In x s -> ~ k == idOf x) -> get k s = None.
Proof.
  induction s as [| y rest IH]; simpl; [reflexivity |].
  intros H. destruct (Qeq_bool k (idOf y)) eqn:Heq.
  - apply Qeq_bool_iff in Heq. elim (H y); auto.
  - apply IH. intros x Hx. apply H. now right.
Qed.

Lemma same_key_same_record x y s :
  wf s -> In x s -> In y s -> idOf x == idOf y -> x = y.
Proof.
  intros Hs Hx Hy Heq.
  pose proof (get_In x s Hs Hx) as Gx. pose proof (get_In y s Hs Hy) as Gy.
  rewrite (get_key_eq (idOf x) (idOf y) s Heq) in Gx. congruence.
Qed.

End StoreLemmas.

Section SortedLists.
Import ActionStore.
Local Open Scope Q_scope.

Lemma filter_wf (f : QueuedAction.t -> bool) s : wf s -> wf (List.filter f s).
Proof.
  unfold wf. induction s as [| x rest IH]; simpl; intros Hs; [constructor |].
  apply StronglySorted_inv in Hs. destruct Hs as [Hrest Hx].
  destruct (f x); [| now apply IH].
  constructor; [now apply IH |].
  rewrite List.Forall_forall in *. intros y Hy.
  apply List.filter_In in Hy. now apply Hx.
Qed.

Lemma getAll_synced_wf v s : wf s -> wf (getAll_synced v s).
Proof. apply filter_wf. Qed.

Lemma getAll_synced_In v x s :
  In x (getAll_synced v s) <-> In x s /\ QueuedAction.synced x = v.
Proof.
  unfold getAll_synced. rewrite List.filter_In.
  now rewrite Bool.eqb_true_iff.
Qed.


End SortedLists.

(** * Properties of the offline manager *)

Section Drain.
Import OfflineManager.
Context {Data Net : Type}.
Variable fetch : Net -> Replay -> option Response * Net.
Variable csrf_meta : option string.

Local Open Scope Q_scope.

Abbreviation sync_loop' := (sync_loop fetch csrf_meta).
Abbreviation drain := (@syncOfflineData Data Net fetch csrf_meta).

Lemma syncSingleAction_resolves n action result att n' :
  syncSingleAction fetch csrf_meta n action = (result, att, n') ->
  attempted att = action
  /\ sent att = sync_request csrf_meta action
  /\ (resolves (outcome att) = true <-> result <> None).
Proof.
  unfold syncSingleAction. destruct (fetch n _) as [response n1].
  intros [= <- <- <-]. simpl. repeat split.
  - destruct response as [r |]; simpl; [| discriminate].
    destruct (ok r); simpl; [| discriminate].
    destruct (json r); [discriminate | discriminate].
  - destruct response as [r |]; simpl; [| congruence].
    destruct (ok r); simpl; [| congruence].
    destruct (json r); [reflexivity | congruence].
Qed.

Lemma sync_loop_spec acts :
  forall store n store' n' attempts,
    ActionStore.wf acts ->
    sync_loop' acts store n = (store', n', attempts) ->
    map attempted attempts = acts
    /\ (forall k, (forall a, In a acts -> ~ k == idOf a) ->
                  ActionStore.get k store' = ActionStore.get k store)
    /\ Forall (settled_in store store') attempts.
Proof.
  induction acts as [| action rest IH]; intros store n store' n' attempts Hwf; simpl.
  - intros [= <- <- <-]. repeat split; constructor.
  - destruct (syncSingleAction fetch csrf_meta n action)
      as [[result att] n1] eqn:Hsingle.
    destruct (sync_loop' rest _ n1) as [[store2 n2] atts] eqn:Hloop.
    intros [= <- <- <-].
    apply StronglySorted_inv in Hwf. destruct Hwf as [Hrest Hhead].
    rewrite List.Forall_forall in Hhead.
    destruct (syncSingleAction_resolves _ _ _ _ _ Hsingle) as (Hatt & _ & Hres).
    destruct (IH _ _ _ _ _ Hrest Hloop) as (Hmap & Hother & Hsettled).
    assert (Hstore1 : forall k, ~ k == idOf action ->
              ActionStore.get k
                match result with
                | Some _ => ActionStore.put (QueuedAction.mark_synced action) store
                | None => store
                end = ActionStore.get k store).
    { intros k Hk. destruct result; [| reflexivity].
      rewrite get_put. simpl.
      destruct (Qeq_bool k (idOf action)) eqn:Hq; [| reflexivity].
      apply Qeq_bool_iff in Hq. contradiction. }
    split; [simpl; congruence |]. split.
    + intros k Hk. rewrite Hother.
      * apply Hstore1. apply Hk. now left.
      * intros a Ha. apply Hk. now right.
    + constructor.
      * unfold settled_in. rewrite Hatt. rewrite Hother.
        -- destruct result as [v |].
           ++ assert (Hr : resolves (outcome att) = true) by (apply Hres; discriminate).
              rewrite Hr, get_put. simpl. now rewrite Qeq_bool_refl.
           ++ destruct (resolves (outcome att)); [| reflexivity].
              exfalso. now apply (proj1 Hres).
        -- intros a Ha. specialize (Hhead a Ha). simpl in Hhead. lra.
      * rewrite List.Forall_forall in *. intros att' Hatt'.
        specialize (Hsettled att' Hatt'). unfold settled_in in *.
        rewrite Hsettled.
        destruct (resolves (outcome att')); [reflexivity |].
        apply Hstore1.
        assert (Hin : In (attempted att') rest)
          by (rewrite <- Hmap; now apply in_map).
        specialize (Hhead _ Hin). simpl in Hhead. lra.
Qed.


(** The drain of an initialised, online manager, unfolded. *)
Lemma drain_online (m : t Data) d n m' n' attempts :
  db m = Some d -> isOnline m = true ->
  drain m n = (m', n', attempts) ->
  exists store,
    sync_loop' (ActionStore.getAll_synced false (Db.offlineActions d))
               (Db.offlineActions d) n = (store, n', attempts)
    /\ queue m' = store
    /\ isOnline m' = true.
Proof.
  intros Hdb Hon. unfold syncOfflineData. rewrite Hon, Hdb. simpl.
  destruct (sync_loop' _ _ n) as [[store n1] atts].
  intros [= <- <- <-]. exists store. repeat split. assumption.
Qed.

Lemma drain_spec (m : t Data) d n m' n' attempts :
  db m = Some d -> isOnline m = true ->
  ActionStore.wf (Db.offlineActions d) ->
  drain m n = (m', n', attempts) ->
  map attempted attempts = ActionStore.getAll_synced false (Db.offlineActions d)
  /\ (forall x, In x (Db.offlineActions d) -> QueuedAction.synced x = true ->
                ActionStore.get (idOf x) (queue m') = Some x)
  /\ Forall (settled_in (Db.offlineActions d) (queue m')) attempts.
Proof.
  intros Hdb Hon Hwf Hdrain.
  destruct (drain_online _ _ _ _ _ _ Hdb Hon Hdrain) as (store & Hloop & -> & _).
  destruct (sync_loop_spec _ _ _ _ _ _ (getAll_synced_wf false _ Hwf) Hloop)
    as (Hmap & Hother & Hsettled).
  repeat split; try assumption.
  intros x Hx Hsynced. rewrite Hother; [now apply get_In |].
  intros a Ha Heq. apply getAll_synced_In in Ha. destruct Ha as [Ha Hfalse].
  rewrite (same_key_same_record x a _ Hwf Hx Ha Heq) in Hsynced. congruence.
Qed.



(** What a drain does to the store. A record whose replay resolved, that is
    the response was ok and its body parsed as JSON, is afterwards in the
    store under the same key with [synced = true] and nothing else changed;
    every record of the store is still there after the drain, as it was or
    marked synced; and the drain of the service worker sends nothing and
    leaves the store as it is. *)
Theorem drain_marks_synced_in_place (m : t Data) d n m' n' attempts :
  db m = Some d -> isOnline m = true ->
  ActionStore.wf (Db.offlineActions d) ->
  drain m n = (m', n', attempts) ->
  (forall att r v, In att attempts ->
      outcome att = Some r -> ok r = true -> json r = Some v ->
      ActionStore.get (idOf (attempted att)) (queue m')
      = Some (QueuedAction.mark_synced (attempted att)))
  /\ (forall x, In x (Db.offlineActions d) ->
        exists x', ActionStore.get (idOf x) (queue m') = Some x'
                   /\ (x' = x \/ x' = QueuedAction.mark_synced x))
  /\ (forall (idb : ActionStore.t) (k : Net),
        ServiceWorker.syncOfflineData fetch idb k = (idb, k, [], ["SYNC_COMPLETED"%string])).
Proof.
  intros Hdb Hon Hwf Hdrain.
  destruct (drain_spec _ _ _ _ _ _ Hdb Hon Hwf Hdrain) as (Hmap & Hsynced & Hsettled).
  rewrite List.Forall_forall in Hsettled.
  split; [| split].
  - intros att r v Hatt Hout Hok Hjson.
    specialize (Hsettled att Hatt). unfold settled_in in Hsettled.
    rewrite Hsettled, Hout. simpl. now rewrite Hok, Hjson.
  - intros x Hx. destruct (QueuedAction.synced x) eqn:Hs.
    + exists x. split; [now apply Hsynced | now left].
    + assert (Hin : In x (map attempted attempts))
        by (rewrite Hmap; now apply getAll_synced_In).
      apply in_map_iff in Hin. destruct Hin as (att & <- & Hatt).
      specialize (Hsettled att Hatt). unfold settled_in in Hsettled.
      destruct (resolves (outcome att)).
      * eexists. split; [exact Hsettled | now right].
      * exists (attempted att). split; [| now left].
        rewrite Hsettled. now apply get_In.
  - reflexivity.
Qed.

(** C10. Offline, or before the database is open, [syncOfflineData] returns
    at once: no request is sent, the network is not touched and the manager,
    with every stored record, is what it was. *)
Theorem drain_offline_is_noop (m : t Data) (n : Net) :
  isOnline m = false \/ db m = None ->
  drain m n = (m, n, []).
Proof.
  intros [Hoff | Hdb]; unfold syncOfflineData.
  - now rewrite Hoff.
  - rewrite Hdb. now destruct (isOnline m).
Qed.

End Drain.

Section Fifo.
Import OfflineManager.
Context {Data Net : Type}.
Variable fetch : Net -> Replay -> option Response * Net.
Variable csrf_meta : option string.

Local Open Scope Q_scope.





End Fifo.

Section CachedDataTtl.
Import OfflineManager.
Context {Data : Type}.


End CachedDataTtl.

Section ManagerExamples.
Import OfflineManager Sample.

Local Open Scope Q_scope.

Lemma two_pending_wf : ActionStore.wf two_pending.
Proof.
  unfold ActionStore.wf, two_pending.
  repeat constructor.
Defined.

(** The drain of [two_pending]: the budget write fails with 500 and stays
    unsynced, the bill write behind it is still replayed and marked. *)
Example drain_two_pending :
  let '(m', n', attempts) :=
    syncOfflineData server None (with_queue true two_pending) 0%nat in
  map (fun att => replay_url (sent att)) attempts = ["/api/budget"; "/api/bills"]%string
  /\ map QueuedAction.synced (queue m') = [false; true]
  /\ n' = 2%nat.
Proof. vm_compute. auto. Qed.


Lemma drain_marks_synced_in_place_witness :
  let res := syncOfflineData server None (with_queue true two_pending) 0%nat in
  (forall att r v, In att (snd res) ->
      outcome att = Some r -> ok r = true -> json r = Some v ->
      ActionStore.get (idOf (attempted att)) (queue (fst (fst res)))
      = Some (QueuedAction.mark_synced (attempted att)))
  /\ (forall x, In x two_pending ->
        exists x', ActionStore.get (idOf x) (queue (fst (fst res))) = Some x'
                   /\ (x' = x \/ x' = QueuedAction.mark_synced x))
  /\ (forall (idb : ActionStore.t) (k : nat),
        ServiceWorker.syncOfflineData server idb k
        = (idb, k, [], ["SYNC_COMPLETED"%string])).
Proof.
  intros res.
  apply (drain_marks_synced_in_place server None (with_queue true two_pending)
           {| Db.offlineActions := two_pending; Db.cachedData := ∅ |}
           0%nat (fst (fst res)) (snd (fst res)) (snd res)).
  - reflexivity.
  - reflexivity.
  - exact two_pending_wf.
  - reflexivity.
Defined.


Lemma drain_offline_is_noop_witness :
  syncOfflineData server None (with_queue false two_pending) 0%nat
  = (with_queue false two_pending, 0%nat, [])
  /\ syncOfflineData server None uninitialised 0%nat = (uninitialised, 0%nat, []).
Proof.
  split.
  - apply (drain_offline_is_noop server None (with_queue false two_pending) 0%nat).
    left. reflexivity.
  - apply (drain_offline_is_noop server None uninitialised 0%nat).
    right. reflexivity.
Defined.




End ManagerExamples.


(** * Further properties of the service worker *)

Section CacheStorageLemmas.
Import CacheStorage.

Lemma match_app_empty key name cs :
  match_ key (cs ++ [(name, ∅)])%list = match_ key cs.
Proof.
  induction cs as [| [n c] rest IH]; simpl.
  - now rewrite lookup_empty.
  - now rewrite IH.
Qed.

Lemma match_open key name cs : match_ key (open name cs) = match_ key cs.
Proof.
  unfold open. destruct (find name cs); [reflexivity | apply match_app_empty].
Qed.

Lemma match_put_other key' name key r cs :
  key' <> key -> match_ key' (put name key r cs) = match_ key' cs.
Proof.
  intros Hne. induction cs as [| [n c] rest IH]; simpl; [reflexivity |].
  destruct (String.eqb n name); simpl.
  - rewrite lookup_insert_ne by congruence. reflexivity.
  - now rewrite IH.
Qed.






Lemma match_store_in_other name request r key' cs :
  key' <> href (url request) ->
  match_ key' (ServiceWorker.store_in name request r cs) = match_ key' cs.
Proof.
  intros Hne. unfold ServiceWorker.store_in.
  now rewrite match_put_other, match_open.
Qed.

End CacheStorageLemmas.

Section Handlers.
Import ServiceWorker.

(** X3. What a fetch event has cached for other URLs is what was cached before:
    whichever handler runs, [caches.match] on a URL other than the one of the
    request answers as it did. *)
Theorem handlers_leave_other_urls_alone (h : Handler) (w : World) (request : Request)
    (key' : string) :
  key' <> href (url request) ->
  CacheStorage.match_ key' (snd (run h w request)) = CacheStorage.match_ key' (caches w).
Proof.
  intros Hne.
  destruct h; simpl;
    unfold handleNetworkFirst, handleCacheFirst, handleStaleWhileRevalidate;
    destruct (network w request) as [r |];
    destruct (CacheStorage.match_ (href (url request)) (caches w));
    try destruct (ok r); simpl;
    try reflexivity; now apply match_store_in_other.
Qed.

Lemma handlers_leave_other_urls_alone_witness :
  CacheStorage.match_ (href (Sample.app "/users/login"))
    (snd (run StaleWhileRevalidate Sample.online_world Sample.dashboard_page))
  = CacheStorage.match_ (href (Sample.app "/users/login")) (caches Sample.online_world).
Proof.
  apply (handlers_leave_other_urls_alone StaleWhileRevalidate Sample.online_world
           Sample.dashboard_page (href (Sample.app "/users/login"))).
  discriminate.
Defined.








Lemma createOfflineResponse_is_response (w : World) (request : Request) :
  is_response (settle (createOfflineResponse w request)).
Proof.
  unfold createOfflineResponse, is_response.
  destruct (accepts request "text/html"); simpl.
  - destruct (CacheStorage.match_ _ _); simpl; eauto.
  - destruct (accepts request "application/json"); simpl; eauto.
Qed.

(** X1. Whatever the caches, the network and the request, the promise given to
    [respondWith] settles with a [Response], except in one case, where it
    settles with [null]: the handler is stale-while-revalidate, nothing is
    cached for the URL and the fetch rejected. *)
Theorem respond_with_gets_a_response_unless_revalidate_offline
    (w : World) (request : Request) (v : JsVal) (cs : CacheStorage.t) :
  on_fetch w request = Some (v, cs) ->
  is_response v
  \/ (v = JsNull
      /\ fetch_listener request = Some StaleWhileRevalidate
      /\ network w request = None
      /\ CacheStorage.match_ (href (url request)) (caches w) = None).
Proof.
  unfold on_fetch. destruct (fetch_listener request) as [h |] eqn:Hl; [| discriminate].
  intros [= Hrun]. rewrite (surjective_pairing (run h w request)) in Hrun.
  injection Hrun as Hv _. subst v.
  destruct h; simpl;
    unfold handleNetworkFirst, handleCacheFirst, handleStaleWhileRevalidate;
    destruct (network w request) as [r |];
    destruct (CacheStorage.match_ (href (url request)) (caches w)) as [c |]; simpl;
    try (left; unfold is_response; eauto; fail);
    try (left; apply createOfflineResponse_is_response).
  right. auto.
Qed.

Lemma respond_with_gets_a_response_unless_revalidate_offline_witness :
  is_response (JsResponse (Sample.page 200))
  \/ (JsResponse (Sample.page 200) = JsNull
      /\ fetch_listener Sample.login_page = Some StaleWhileRevalidate
      /\ network Sample.online_world Sample.login_page = None
      /\ CacheStorage.match_ (href (url Sample.login_page)) (caches Sample.online_world)
         = None).
Proof.
  apply (respond_with_gets_a_response_unless_revalidate_offline
           Sample.online_world Sample.login_page (JsResponse (Sample.page 200))
           (snd (handleNetworkFirst Sample.online_world Sample.login_page))).
  reflexivity.
Defined.

Lemma createOfflineResponse_settled_witness :
  settle (createOfflineResponse Sample.offline_world Sample.login_page)
  = JsResponse {| status := 200; content_type := Some "text/html"; body := OfflineHTML |}
  /\ (exists message,
        settle (createOfflineResponse Sample.offline_world Sample.bills_json)
        = JsResponse {| status := 200; content_type := Some "application/json";
                        body := JsonText (JObj [ ("offline", JBool true);
                                                 ("message", JStr message);
                                                 ("timestamp", JNum 1700000000000) ]) |})
  /\ (exists content text,
        settle (createOfflineResponse Sample.offline_world Sample.stylesheet)
        = JsResponse {| status := 503; content_type := content; body := PlainText text |}).
Proof.
  split; [| split].
  - apply (proj1 (createOfflineResponse_settled Sample.offline_world Sample.login_page)).
    reflexivity.
  - apply (proj1 (proj2 (createOfflineResponse_settled Sample.offline_world
                           Sample.bills_json))); reflexivity.
  - apply (proj2 (proj2 (createOfflineResponse_settled Sample.offline_world
                           Sample.stylesheet))); reflexivity.
Defined.

End Handlers.

Section ActivationMore.
Import ServiceWorker.

Lemma delete_filter n cs :
  CacheStorage.delete n cs = List.filter (fun p => negb (String.eqb (fst p) n)) cs.
Proof.
  induction cs as [| [n' c] rest IH]; simpl; [reflexivity |].
  destruct (String.eqb n' n); simpl; now rewrite IH.
Qed.

Lemma filter_filter_and {A} (f g : A -> bool) (l : list A) :
  List.filter f (List.filter g l) = List.filter (fun x => g x && f x) l.
Proof.
  induction l as [| x rest IH]; simpl; [reflexivity |].
  destruct (g x); simpl; [destruct (f x) |]; now rewrite IH.
Qed.

Lemma filter_all {A} (f : A -> bool) (l : list A) :
  (forall x, In x l -> f x = true) -> List.filter f l = l.
Proof.
  induction l as [| x rest IH]; simpl; intros H; [reflexivity |].
  rewrite (H x (or_introl eq_refl)). f_equal. apply IH. auto.
Qed.

Lemma filter_none {A} (f : A -> bool) (l : list A) :
  (forall x, In x l -> f x = false) -> List.filter f l = [].
Proof.
  induction l as [| x rest IH]; simpl; intros H; [reflexivity |].
  rewrite (H x (or_introl eq_refl)). apply IH. auto.
Qed.

(** The cleanup of a list of names keeps a cache unless its name is in the
    list and outside the whitelist. *)
Lemma cleanup_filter names cs :
  fold_left cleanup_step names cs
  = List.filter
      (fun p => negb (Js.array_includes names (fst p)
                      && negb (Js.array_includes cacheWhitelist (fst p))))
      cs.
Proof.
  revert cs. induction names as [| n names IH]; intros cs.
  - simpl. symmetry. now apply filter_all.
  - cbn [fold_left]. rewrite IH. unfold cleanup_step.
    destruct (Js.array_includes cacheWhitelist n) eqn:Hn; cbn [negb].
    + apply List.filter_ext. intros [x c]. cbn [fst].
      change (Js.array_includes (n :: names) x)
        with (String.eqb x n || Js.array_includes names x).
      destruct (String.eqb x n) eqn:Hx; [| reflexivity].
      apply String.eqb_eq in Hx. subst x. rewrite Hn. cbn.
      now rewrite andb_false_r.
    + rewrite delete_filter, filter_filter_and.
      apply List.filter_ext. intros [x c]. cbn [fst].
      change (Js.array_includes (n :: names) x)
        with (String.eqb x n || Js.array_includes names x).
      destruct (String.eqb x n) eqn:Hx; cbn [negb andb orb]; [| reflexivity].
      apply String.eqb_eq in Hx. subst x. now rewrite Hn.
Qed.

Lemma includes_own_key (cs : CacheStorage.t) p :
  In p cs -> Js.array_includes (CacheStorage.keys cs) (fst p) = true.
Proof.
  intros Hin. apply array_includes_In. unfold CacheStorage.keys. now apply in_map.
Qed.

Lemma activate_filter cs :
  fst (activate cs)
  = List.filter (fun p => Js.array_includes cacheWhitelist (fst p)) cs.
Proof.
  unfold activate. cbn [fst]. rewrite cleanup_filter.
  apply List.filter_ext_in. intros p Hp.
  rewrite (includes_own_key cs p Hp). cbn [andb]. apply negb_involutive.
Qed.


Lemma match_Some_In key cs r :
  CacheStorage.match_ key cs = Some r ->
  exists n c, In (n, c) cs /\ c !! key = Some r.
Proof.
  induction cs as [| [n c] rest IH]; simpl; [discriminate |].
  destruct (c !! key) as [r' |] eqn:Hc.
  - intros [= <-]. exists n, c. auto.
  - intros H. destruct (IH H) as (n' & c' & Hin & Hl). exists n', c'. auto.
Qed.

(** X9. After activation [caches.match] can only answer from a whitelisted
    cache: an entry that only a namespace of another version held is no
    longer served. *)
Theorem activate_serves_only_current_versions (cs : CacheStorage.t) key r :
  CacheStorage.match_ key (fst (activate cs)) = Some r ->
  exists n c, In (n, c) cs /\ In n cacheWhitelist /\ c !! key = Some r.
Proof.
  rewrite activate_filter. intros H.
  destruct (match_Some_In _ _ _ H) as (n & c & Hin & Hl).
  apply List.filter_In in Hin. destruct Hin as [Hin Hw]. cbn [fst] in Hw.
  exists n, c. repeat split; try assumption. now apply array_includes_In.
Qed.

Lemma activate_serves_only_current_versions_witness :
  exists n c, In (n, c) Sample.old_and_new /\ In n cacheWhitelist
              /\ c !! href (Sample.app "/static/css/styles.css") = Some (Sample.page 200).
Proof.
  apply (activate_serves_only_current_versions Sample.old_and_new
           (href (Sample.app "/static/css/styles.css")) (Sample.page 200)).
  reflexivity.
Defined.

End ActivationMore.

Section Install.
Import ServiceWorker Lifecycle.

Abbreviation entry_key := (fun qr : Request * Response => href (url (fst qr))).
Abbreviation put_entry name :=
  (fun acc (qr : Request * Response) => CacheStorage.put name (entry_key qr) (snd qr) acc).
Abbreviation insert_entry :=
  (fun (m : gmap string Response) (qr : Request * Response) => <[entry_key qr := snd qr]> m).

Lemma find_app name l1 l2 :
  CacheStorage.find name (l1 ++ l2)%list
  = match CacheStorage.find name l1 with
    | Some c => Some c
    | None => CacheStorage.find name l2
    end.
Proof.
  induction l1 as [| [n c] rest IH]; simpl; [reflexivity |].
  now destruct (String.eqb n name).
Qed.

Lemma find_None_keys name cs :
  (forall n c, In (n, c) cs -> n <> name) -> CacheStorage.find name cs = None.
Proof.
  induction cs as [| [n c] rest IH]; simpl; intros H; [reflexivity |].
  destruct (String.eqb n name) eqn:Hn.
  - apply String.eqb_eq in Hn. elim (H n c); auto.
  - apply IH. intros n' c' Hin. apply (H n' c'). now right.
Qed.

Lemma put_app_skip name k r cs rest :
  CacheStorage.find name cs = None ->
  CacheStorage.put name k r (cs ++ rest)%list = (cs ++ CacheStorage.put name k r rest)%list.
Proof.
  induction cs as [| [n c] cs' IH]; simpl; [reflexivity |].
  destruct (String.eqb n name); [discriminate |].
  intros H. now rewrite IH.
Qed.

Lemma fold_put_head name (fetched : list (Request * Response)) cs c0 tail :
  CacheStorage.find name cs = None ->
  fold_left (put_entry name) fetched (cs ++ (name, c0) :: tail)%list
  = (cs ++ (name, fold_left insert_entry fetched c0) :: tail)%list.
Proof.
  intros Hfresh. revert c0.
  induction fetched as [| qr rest IH]; intros c0; simpl; [reflexivity |].
  rewrite put_app_skip by assumption. simpl. rewrite String.eqb_refl. apply IH.
Qed.




Lemma fetch_all_Some network requests fetched :
  fetch_all network requests = Some fetched ->
  map fst fetched = requests
  /\ forall q r, In (q, r) fetched -> network q = Some r /\ ok r = true.
Proof.
  revert fetched. induction requests as [| q rest IH]; intros fetched; simpl.
  - intros [= <-]. split; [reflexivity | intros ? ? []].
  - destruct (network q) as [r |] eqn:Hq; [| discriminate].
    destruct (ok r) eqn:Hok; [| discriminate].
    destruct (fetch_all network rest) as [l |]; [| discriminate].
    intros [= <-]. destruct (IH l eq_refl) as [Hmap Hall].
    split; [simpl; now rewrite Hmap |].
    intros q' r' [[= <- <-] | Hin]; [auto | now apply Hall].
Qed.


Lemma fold_insert_lookup (fetched : list (Request * Response)) m k r :
  (forall q' r', In (q', r') fetched -> href (url q') = k -> r' = r) ->
  (exists q, In (q, r) fetched /\ href (url q) = k) \/ m !! k = Some r ->
  fold_left insert_entry fetched m !! k = Some r.
Proof.
  revert m. induction fetched as [| [q1 r1] rest IH]; intros m Hfun Hin; simpl.
  - destruct Hin as [(q & [] & _) | H]. exact H.
  - apply IH.
    + intros q' r' H. apply Hfun. now right.
    + destruct Hin as [(q & [[= <- <-] | Hin] & Hk) | Hm].
      * right. rewrite <- Hk. apply lookup_insert_eq.
      * left. eauto.
      * right. destruct (decide (href (url q1) = k)) as [Hk | Hk].
        -- rewrite (Hfun q1 r1 (or_introl eq_refl) Hk), <- Hk. apply lookup_insert_eq.
        -- now rewrite lookup_insert_ne.
Qed.

Lemma app_inj_l (p a b : string) : p +:+ a = p +:+ b -> a = b.
Proof.
  induction p as [| c p IH]; simpl; [tauto |]. intros [= H]. now apply IH.
Qed.

Lemma app_empty_r (a : string) : a +:+ "" = a.
Proof.
  induction a as [| c a IH]; [reflexivity |].
  change (String c (a +:+ "") = String c a). now rewrite IH.
Qed.

Lemma asset_key_inj location a b :
  href (url (asset_request location a)) = href (url (asset_request location b)) -> a = b.
Proof.
  unfold href, asset_request. simpl. rewrite !app_empty_r.
  intros H. now do 3 apply app_inj_l in H.
Qed.




Example install_fails_without_manifest :
  snd (install MoreSamples.worker_location MoreSamples.manifest_missing Sample.old_and_new)
  = false.
Proof. reflexivity. Qed.

(** On a version bump, install followed by activate leaves the three current
    namespaces and nothing else, the static one holding what [addAll]
    fetched. *)
Lemma install_then_activate location network cs fetched :
  (forall n c, In (n, c) cs -> ~ In n cacheWhitelist) ->
  fetch_all network (map (asset_request location) STATIC_ASSETS) = Some fetched ->
  fst (activate (fst (install location network cs)))
  = [ (STATIC_CACHE, fold_left insert_entry fetched ∅);
      (DYNAMIC_CACHE, ∅);
      (API_CACHE, ∅) ].
Proof.
  intros Hfresh Hfetch.
  assert (Hnone : forall name, In name cacheWhitelist -> CacheStorage.find name cs = None).
  { intros name Hname. apply find_None_keys. intros n c Hin ->. exact (Hfresh _ _ Hin Hname). }
  assert (Hs : CacheStorage.find STATIC_CACHE cs = None) by (apply Hnone; simpl; auto).
  assert (Hd : CacheStorage.find DYNAMIC_CACHE cs = None) by (apply Hnone; simpl; auto).
  assert (Ha : CacheStorage.find API_CACHE cs = None) by (apply Hnone; simpl; auto).
  assert (Hopened :
    CacheStorage.open API_CACHE
      (CacheStorage.open DYNAMIC_CACHE (CacheStorage.open STATIC_CACHE cs))
    = (cs ++ [(STATIC_CACHE, ∅); (DYNAMIC_CACHE, ∅); (API_CACHE, ∅)])%list).
  { unfold CacheStorage.open at 3. rewrite Hs.
    unfold CacheStorage.open at 2. rewrite find_app, Hd.
    change (CacheStorage.find DYNAMIC_CACHE [(STATIC_CACHE, ∅)]) with (@None CacheStorage.Cache).
    unfold CacheStorage.open. rewrite !find_app, Ha.
    change (CacheStorage.find API_CACHE [(STATIC_CACHE, ∅)]) with (@None CacheStorage.Cache).
    change (CacheStorage.find API_CACHE [(DYNAMIC_CACHE, ∅)]) with (@None CacheStorage.Cache).
    now rewrite <- !app_assoc. }
  unfold install, addAll. rewrite Hfetch, Hopened. cbn [fst].
  rewrite (fold_put_head STATIC_CACHE fetched cs ∅ _ Hs).
  rewrite activate_filter, List.filter_app.
  rewrite (filter_none _ cs).
  - reflexivity.
  - intros [n c] Hin. cbn [fst]. apply not_true_is_false. intros Hw.
    apply array_includes_In in Hw. exact (Hfresh _ _ Hin Hw).
Qed.

Lemma precached_lookup location network fetched asset :
  fetch_all network (map (asset_request location) STATIC_ASSETS) = Some fetched ->
  In asset STATIC_ASSETS ->
  exists r, network (asset_request location asset) = Some r
            /\ fold_left insert_entry fetched (∅ : gmap string Response)
               !! href (url (asset_request location asset)) = Some r.
Proof.
  intros Hfetch Hasset.
  destruct (fetch_all_Some _ _ _ Hfetch) as [Hmap Hall].
  assert (Hq : In (asset_request location asset) (map fst fetched))
    by (rewrite Hmap; now apply in_map).
  apply in_map_iff in Hq. destruct Hq as ([q r] & Hq & Hqr). simpl in Hq. subst q.
  exists r. split; [now apply Hall |].
  apply fold_insert_lookup.
  - intros q' r' Hin' Hkey.
    assert (Hq' : In q' (map (asset_request location) STATIC_ASSETS))
      by (rewrite <- Hmap; apply in_map_iff; exists (q', r'); auto).
    apply in_map_iff in Hq'. destruct Hq' as (asset' & <- & _).
    apply asset_key_inj in Hkey. subst asset'.
    destruct (Hall _ _ Hin') as [Hr' _]. destruct (Hall _ _ Hqr) as [Hr _]. congruence.
  - left. exists (asset_request location asset). auto.
Qed.

(** X11. Version bump: when the storage holds no namespace of the current version
    and install succeeds, install followed by activate leaves exactly the
    three current namespaces, and [caches.match] answers every static asset
    with the response fetched at install time. *)
Theorem fresh_version_install_then_activate
    (location : URL) (network : Request -> option Response) (cs : CacheStorage.t) :
  (forall n c, In (n, c) cs -> ~ In n cacheWhitelist) ->
  snd (install location network cs) = true ->
  CacheStorage.keys (fst (activate (fst (install location network cs))))
  = [STATIC_CACHE; DYNAMIC_CACHE; API_CACHE]
  /\ forall asset, In asset STATIC_ASSETS ->
       exists r, network (asset_request location asset) = Some r
                 /\ CacheStorage.match_ (href (url (asset_request location asset)))
                      (fst (activate (fst (install location network cs)))) = Some r.
Proof.
  intros Hfresh Hok.
  destruct (fetch_all network (map (asset_request location) STATIC_ASSETS))
    as [fetched |] eqn:Hfetch.
  - rewrite (install_then_activate _ _ _ _ Hfresh Hfetch).
    split; [reflexivity |]. intros asset Hasset.
    destruct (precached_lookup _ _ _ _ Hfetch Hasset) as (r & Hr & Hl).
    exists r. split; [assumption |]. cbn [CacheStorage.match_]. now rewrite Hl.
  - unfold install, addAll in Hok. rewrite Hfetch in Hok. discriminate.
Qed.

Lemma old_only_is_old n c :
  In (n, c) MoreSamples.old_only -> ~ In n cacheWhitelist.
Proof.
  intros [[= <- <-] | [[= <- <-] | []]] Hin;
    simpl in Hin; repeat (destruct Hin as [Hin | Hin]; [discriminate Hin |]);
    exact Hin.
Defined.

Lemma fresh_version_install_then_activate_witness :
  CacheStorage.keys
    (fst (activate (fst (install MoreSamples.worker_location MoreSamples.all_ok
                           MoreSamples.old_only))))
  = [STATIC_CACHE; DYNAMIC_CACHE; API_CACHE]
  /\ forall asset, In asset STATIC_ASSETS ->
       exists r,
         MoreSamples.all_ok (asset_request MoreSamples.worker_location asset) = Some r
         /\ CacheStorage.match_
              (href (url (asset_request MoreSamples.worker_location asset)))
              (fst (activate (fst (install MoreSamples.worker_location MoreSamples.all_ok
                                     MoreSamples.old_only)))) = Some r.
Proof.
  apply (fresh_version_install_then_activate MoreSamples.worker_location
           MoreSamples.all_ok MoreSamples.old_only).
  - exact old_only_is_old.
  - reflexivity.
Defined.

Lemma asset_is_cache_first location asset :
  protocol location <> "chrome-extension:" ->
  In asset STATIC_ASSETS ->
  fetch_listener (asset_request location asset) = Some CacheFirst.
Proof.
  intros Hp Hin. unfold fetch_listener. cbv zeta.
  assert (Hi : RouteSpec.intercepted (asset_request location asset))
    by (split; [reflexivity | exact Hp]).
  rewrite (listener_guard _ Hi).
  change (pathname (url (asset_request location asset))) with asset.
  unfold STATIC_ASSETS in Hin. simpl in Hin.
  repeat (destruct Hin as [<- | Hin]; [reflexivity |]).
  contradiction.
Qed.

(** X12. Once a new version is installed and activated, a GET for a static asset
    on the origin of the worker is answered from the cache with the response
    fetched at install time, whatever the network does, and the storage
    stays as it is. *)
Theorem precached_asset_is_served_offline
    (location : URL) (network : Request -> option Response) (cs : CacheStorage.t)
    (asset : string) (w : World) :
  (forall n c, In (n, c) cs -> ~ In n cacheWhitelist) ->
  snd (install location network cs) = true ->
  protocol location <> "chrome-extension:" ->
  In asset STATIC_ASSETS ->
  caches w = fst (activate (fst (install location network cs))) ->
  exists r, network (asset_request location asset) = Some r
            /\ on_fetch w (asset_request location asset) = Some (JsResponse r, caches w).
Proof.
  intros Hfresh Hok Hp Hasset Hw.
  destruct (fetch_all network (map (asset_request location) STATIC_ASSETS))
    as [fetched |] eqn:Hfetch.
  - destruct (precached_lookup _ _ _ _ Hfetch Hasset) as (r & Hr & Hl).
    exists r. split; [assumption |].
    unfold on_fetch. rewrite (asset_is_cache_first _ _ Hp Hasset). simpl.
    unfold handleCacheFirst. rewrite Hw at 1.
    rewrite (install_then_activate _ _ _ _ Hfresh Hfetch).
    cbn [CacheStorage.match_]. now rewrite Hl.
  - unfold install, addAll in Hok. rewrite Hfetch in Hok. discriminate.
Qed.

Lemma precached_asset_is_served_offline_witness :
  let w := {| caches :=
                fst (activate (fst (install MoreSamples.worker_location MoreSamples.all_ok
                                      MoreSamples.old_only)));
              network := fun _ => None;
              now := 1700000000001;
              origin := "https://ficore.africa" |} in
  exists r,
    MoreSamples.all_ok (asset_request MoreSamples.worker_location "/static/manifest.json")
    = Some r
    /\ on_fetch w (asset_request MoreSamples.worker_location "/static/manifest.json")
       = Some (JsResponse r, caches w).
Proof.
  intros w.
  apply (precached_asset_is_served_offline MoreSamples.worker_location MoreSamples.all_ok
           MoreSamples.old_only "/static/manifest.json" w).
  - exact old_only_is_old.
  - reflexivity.
  - discriminate.
  - simpl. tauto.
  - reflexivity.
Defined.

End Install.

Section RouteTables.
Import ServiceWorker.

Lemma startsWith_app s p : Js.startsWith s p = true -> exists rest, s = p +:+ rest.
Proof.
  revert s. induction p as [| c p IH]; intros s; simpl.
  - intros _. now exists s.
  - destruct s as [| d s]; simpl; [discriminate |].
    destruct (Ascii.eqb c d) eqn:Hc; [| discriminate].
    apply Ascii.eqb_eq in Hc. subst d.
    intros H. destruct (IH s H) as (rest & ->). now exists rest.
Qed.

Lemma prefix_cases routes path :
  Js.some routes (fun route => Js.startsWith path route) = true ->
  exists route rest, In route routes /\ path = route +:+ rest.
Proof.
  intros H. apply some_prefix in H. destruct H as (route & Hin & Hp).
  apply startsWith_app in Hp. destruct Hp as (rest & ->). eauto.
Qed.

(** X7. No path passes two of the four tests of the fetch listener: the tables of
    network-first, cacheable and cache-first prefixes and the list of static
    assets do not overlap, so the order of the tests decides nothing for the
    tables as they are. *)
Theorem route_tables_do_not_overlap (path : string) :
  let network_first := Js.some NETWORK_FIRST_ROUTES (fun route => Js.startsWith path route) in
  let cacheable := Js.some CACHEABLE_API_ROUTES (fun route => Js.startsWith path route) in
  let cache_first := Js.some CACHE_FIRST_ROUTES (fun route => Js.startsWith path route) in
  let static_asset := Js.some STATIC_ASSETS (fun asset => Js.strict_eq path asset) in
  (network_first = true ->
   cacheable = false /\ cache_first = false /\ static_asset = false)
  /\ (cacheable = true -> cache_first = false /\ static_asset = false)
  /\ (cache_first = true -> static_asset = false).
Proof.
  cbv zeta. split; [| split]; intros H;
    apply prefix_cases in H; destruct H as (route & rest & Hin & ->);
    simpl in Hin;
    repeat (destruct Hin as [<- | Hin]; [repeat split; reflexivity |]);
    contradiction.
Qed.

Lemma route_tables_do_not_overlap_witness :
  Js.some CACHEABLE_API_ROUTES (fun route => Js.startsWith "/users/login" route) = false
  /\ Js.some CACHE_FIRST_ROUTES (fun route => Js.startsWith "/users/login" route) = false
  /\ Js.some STATIC_ASSETS (fun asset => Js.strict_eq "/users/login" asset) = false.
Proof.
  apply (proj1 (route_tables_do_not_overlap "/users/login")). reflexivity.
Defined.

End RouteTables.

Section WorkerSync.
Import ServiceWorker Lifecycle.
Context {Net : Type}.
Variable fetch : Net -> Replay -> option Response * Net.



End WorkerSync.


(** * Further properties of the offline manager *)

Section StoreMore.
Import ActionStore.
Local Open Scope Q_scope.



(** Marking a stored record replaces it where it is. *)
Lemma put_mark_keys a s :
  wf s -> In a s ->
  map idOf (put (QueuedAction.mark_synced a) s) = map idOf s.
Proof.
  unfold wf. induction s as [| x rest IH]; simpl; [tauto |].
  intros Hs Hin. apply StronglySorted_inv in Hs. destruct Hs as [Hrest Hx].
  rewrite List.Forall_forall in Hx.
  destruct Hin as [-> | Hin].
  - assert (Hlt : key_lt (idOf a) (idOf a) = false) by (apply key_lt_false; lra).
    rewrite Hlt, Qeq_bool_refl. reflexivity.
  - specialize (Hx a Hin). simpl in Hx.
    assert (Hlt : key_lt (idOf a) (idOf x) = false) by (apply key_lt_false; lra).
    rewrite Hlt.
    destruct (Qeq_bool (idOf a) (idOf x)) eqn:Heq.
    + apply Qeq_bool_iff in Heq. lra.
    + simpl. f_equal. now apply IH.
Qed.




End StoreMore.

Section Enqueue.
Import OfflineManager ManagerApi.
Local Open Scope Q_scope.





End Enqueue.

Section CachedDataMore.
Import OfflineManager.

(** X23. Writing one key of the cached data leaves every other key, and the
    action queue, as they were, whether or not the write succeeded. *)
Theorem setCachedData_leaves_the_rest {Data : Type}
    (m : t Data) (key key' : string) (data : Data) (ttl : option Z)
    (now_timestamp now_expiry now : Z) :
  key' <> key ->
  getCachedData (snd (setCachedData m key data ttl now_timestamp now_expiry)) key' now
  = getCachedData m key' now
  /\ queue (snd (setCachedData m key data ttl now_timestamp now_expiry)) = queue m.
Proof.
  intros Hne. unfold setCachedData, getCachedData, queue.
  destruct (db m) as [d |] eqn:Hdb; simpl; [| now rewrite Hdb].
  rewrite lookup_insert_ne by congruence. auto.
Qed.

Lemma setCachedData_leaves_the_rest_witness :
  getCachedData
    (snd (setCachedData Sample.fresh "dashboard_summary" 42%Z None 1000 1000))
    "recent_bills" 2000
  = getCachedData Sample.fresh "recent_bills" 2000
  /\ queue (snd (setCachedData Sample.fresh "dashboard_summary" 42%Z None 1000 1000))
     = queue Sample.fresh.
Proof.
  apply (setCachedData_leaves_the_rest Sample.fresh "dashboard_summary" "recent_bills"
           42%Z None 1000 1000 2000).
  discriminate.
Defined.





End CachedDataMore.

Section DrainMore.
Import OfflineManager ManagerApi.
Context {Data Net : Type}.
Variable fetch : Net -> Replay -> option Response * Net.
Variable csrf_meta : option string.

Local Open Scope Q_scope.

Lemma drain_result (m m' : t Data) d n n' attempts :
  db m = Some d -> isOnline m = true ->
  syncOfflineData fetch csrf_meta m n = (m', n', attempts) ->
  exists store,
    sync_loop fetch csrf_meta
      (ActionStore.getAll_synced false (Db.offlineActions d)) (Db.offlineActions d) n
    = (store, n', attempts)
    /\ m' = with_db m {| Db.offlineActions := store; Db.cachedData := Db.cachedData d |}.
Proof.
  intros Hdb Hon. unfold syncOfflineData. rewrite Hon, Hdb. simpl.
  destruct (sync_loop fetch csrf_meta _ _ n) as [[store n1] atts].
  intros [= <- <- <-]. now exists store.
Qed.


(** The loop neither adds nor removes a key. *)
Lemma sync_loop_keys acts :
  forall store n store' n' attempts,
    ActionStore.wf store -> ActionStore.wf acts ->
    (forall a, In a acts -> In a store) ->
    sync_loop fetch csrf_meta acts store n = (store', n', attempts) ->
    map idOf store' = map idOf store.
Proof.
  induction acts as [| action rest IH];
    intros store n store' n' attempts Hwf Hacts Hsub; simpl.
  - now intros [= <- <- <-].
  - destruct (syncSingleAction fetch csrf_meta n action) as [[result att] n1].
    destruct (sync_loop fetch csrf_meta rest _ n1) as [[store2 n2] atts] eqn:Hloop.
    intros [= <- <- <-].
    apply StronglySorted_inv in Hacts. destruct Hacts as [Hrest Hhead].
    rewrite List.Forall_forall in Hhead.
    destruct result as [v |].
    + rewrite (IH _ _ _ _ _ (put_wf _ _ Hwf) Hrest) with (2 := Hloop).
      * apply put_mark_keys; [assumption | apply Hsub; now left].
      * intros a Ha. apply In_put_other; [apply Hsub; now right |].
        specialize (Hhead a Ha). simpl in *. lra.
    + apply (IH _ _ _ _ _ Hwf Hrest) with (2 := Hloop).
      intros a Ha. apply Hsub. now right.
Qed.



(** X18. A drain keeps the keys of the store as they are, in their order: it adds
    and removes no record; it leaves the cached data and the connectivity
    flag alone. *)
Theorem drain_keeps_keys_and_cache (m m' : t Data) d n n' attempts :
  db m = Some d -> isOnline m = true ->
  ActionStore.wf (Db.offlineActions d) ->
  syncOfflineData fetch csrf_meta m n = (m', n', attempts) ->
  map idOf (queue m') = map idOf (queue m)
  /\ (forall key now, getCachedData m' key now = getCachedData m key now)
  /\ isOnline m' = isOnline m.
Proof.
  intros Hdb Hon Hwf Hdrain.
  destruct (drain_result _ _ _ _ _ _ Hdb Hon Hdrain) as (store & Hloop & ->).
  unfold queue, getCachedData. simpl. rewrite Hdb. repeat split.
  apply (sync_loop_keys _ _ _ _ _ _ Hwf (getAll_synced_wf false _ Hwf)) with (2 := Hloop).
  intros a Ha. now apply getAll_synced_In in Ha.
Qed.


End DrainMore.

Section Replayed.
Import OfflineManager ManagerApi.
Context {Data Net Payload Fields : Type}.
Variable fetch : Net -> Replay -> option Response * Net.
Variable csrf_meta : option string.
Variable stringify_payload : Payload -> string.
Variable stringify_fields : Fields -> string.

Local Open Scope Q_scope.




End Replayed.

Section ReplayHeaders.
Import OfflineManager ManagerApi.

Lemma obj_get_set k k' v o :
  obj_get k (obj_set k' v o) = if String.eqb k' k then Some v else obj_get k o.
Proof.
  induction o as [| [k1 v1] rest IH]; simpl; [reflexivity |].
  destruct (String.eqb k1 k') eqn:H1; simpl.
  - apply String.eqb_eq in H1. subst k1. now destruct (String.eqb k' k).
  - rewrite IH. destruct (String.eqb k1 k) eqn:H2; [| reflexivity].
    apply String.eqb_eq in H2. subst k1. now rewrite String.eqb_sym, H1.
Qed.

Lemma obj_get_absent k (o : list (string * string)) :
  ~ In k (map fst o) -> obj_get k o = None.
Proof.
  induction o as [| [k1 v1] rest IH]; simpl; [reflexivity |].
  intros H. destruct (String.eqb k1 k) eqn:H1.
  - apply String.eqb_eq in H1. tauto.
  - apply IH. tauto.
Qed.

Lemma obj_get_spread k a b :
  List.NoDup (map fst b) ->
  obj_get k (spread a b)
  = match obj_get k b with
    | Some v => Some v
    | None => obj_get k a
    end.
Proof.
  unfold spread. revert a. induction b as [| [k1 v1] rest IH]; intros a Hnd; simpl.
  - reflexivity.
  - simpl in Hnd. apply List.NoDup_cons_iff in Hnd. destruct Hnd as [Hk1 Hnd].
    rewrite (IH _ Hnd), obj_get_set.
    destruct (String.eqb k1 k) eqn:H1; [| reflexivity].
    apply String.eqb_eq in H1. subst k1. now rewrite (obj_get_absent k rest Hk1).
Qed.

(** X20. The headers of a replay: a header the action carries is sent with the
    value the action gives it, also when it is Content-Type or X-CSRFToken;
    otherwise the request has Content-Type application/json and the CSRF
    token of the page, empty when the page has none. The method is the
    action's, POST when it is missing or empty. *)
Theorem replay_headers_and_method (csrf_meta : option string) (a : QueuedAction.t)
    (k : string) :
  List.NoDup (map fst (Action.headers (QueuedAction.action a))) ->
  obj_get k (replay_headers (sync_request csrf_meta a))
  = match obj_get k (Action.headers (QueuedAction.action a)) with
    | Some v => Some v
    | None =>
        if String.eqb k "Content-Type" then Some "application/json"
        else if String.eqb k "X-CSRFToken" then Some (default "" csrf_meta)
        else None
    end
  /\ replay_method (sync_request csrf_meta a)
     = match Action.method (QueuedAction.action a) with
       | Some "" | None => "POST"
       | Some s => s
       end.
Proof.
  intros Hnd. split.
  - unfold sync_request. cbn [replay_headers]. rewrite (obj_get_spread _ _ _ Hnd).
    destruct (obj_get k _); [reflexivity |]. cbn [obj_get].
    rewrite (String.eqb_sym "Content-Type" k), (String.eqb_sym "X-CSRFToken" k).
    reflexivity.
  - unfold sync_request, method_or_POST. cbn [replay_method].
    destruct (Action.method (QueuedAction.action a)) as [s |]; [| reflexivity].
    destruct s; reflexivity.
Qed.

End ReplayHeaders.

Section ManagerMoreExamples.
Import OfflineManager ManagerApi Sample MoreSamples.
Local Open Scope Q_scope.




Lemma drain_keeps_keys_and_cache_witness :
  let res := syncOfflineData server None (with_queue true two_pending) 0%nat in
  map idOf (queue (fst (fst res))) = map idOf (queue (with_queue true two_pending))
  /\ (forall key now,
        getCachedData (fst (fst res)) key now
        = getCachedData (with_queue true two_pending) key now)
  /\ isOnline (fst (fst res)) = isOnline (with_queue true two_pending).
Proof.
  intros res.
  apply (drain_keeps_keys_and_cache server None (with_queue true two_pending)
           (fst (fst res)) {| Db.offlineActions := two_pending; Db.cachedData := ∅ |}
           0%nat (snd (fst res)) (snd res)).
  - reflexivity.
  - reflexivity.
  - repeat constructor.
  - reflexivity.
Defined.




Example post_is_upper_cased : toUpperCase "post" = "POST".
Proof. reflexivity. Qed.

Lemma replay_headers_and_method_witness :
  let a := queued {| Action.type := "t"; Action.url := "/u"; Action.method := Some "";
                     Action.headers := [("Content-Type", "text/plain")];
                     Action.body := "b" |} 0 0 false in
  obj_get "Content-Type" (replay_headers (sync_request (Some "tok") a))
  = match obj_get "Content-Type" (Action.headers (QueuedAction.action a)) with
    | Some v => Some v
    | None =>
        if String.eqb "Content-Type" "Content-Type" then Some "application/json"
        else if String.eqb "Content-Type" "X-CSRFToken" then Some (default "" (Some "tok"))
        else None
    end
  /\ replay_method (sync_request (Some "tok") a)
     = match Action.method (QueuedAction.action a) with
       | Some "" | None => "POST"
       | Some s => s
       end.
Proof.
  intros a.
  apply (replay_headers_and_method (Some "tok") a "Content-Type").
  repeat constructor. simpl. tauto.
Defined.

End ManagerMoreExamples.


(** * Properties of the forms handler and of the dashboard *)

Section FormState.
Import ManagerApi OfflineForms.

(** X26. Saved form state is restored for twenty-four hours: a form whose state
    key is the one written gets the saved fields back while less than
    86400000 ms have passed, and nothing from then on; after
    [clearFormState] nothing is restored; a form with another key is not
    affected. Forms share a key when they have the same id, or no id and the
    same action. *)
Theorem form_state_is_restored_for_a_day
    (ls : gmap string Item) (form form' : Form) (data : Fields) (saved now : Z) :
  (state_key form' = state_key form ->
   restoreFormState (saveFormState ls form data saved) form' now
   = if (now - saved <? 86400000)%Z then Some data else None)
  /\ (state_key form' = state_key form ->
      restoreFormState (clearFormState (saveFormState ls form data saved) form) form' now
      = None)
  /\ (state_key form' <> state_key form ->
      restoreFormState (saveFormState ls form data saved) form' now
      = restoreFormState ls form' now).
Proof.
  unfold restoreFormState, saveFormState, clearFormState. repeat split.
  - intros ->. rewrite lookup_insert_eq. reflexivity.
  - intros ->. now rewrite lookup_delete_eq.
  - intros Hne. rewrite lookup_insert_ne by congruence. reflexivity.
Qed.

End FormState.

Section Submission.
Import OfflineManager ManagerApi OfflineForms.
Context {Data Net : Type}.
Variable fetch : Net -> Replay -> option Response * Net.
Variable csrf_meta : option string.
Variable stringify : Fields -> string.

Local Open Scope Q_scope.

Abbreviation submit := (handleFormSubmission fetch csrf_meta stringify).

(** The record a submission leaves in the queue *)
Abbreviation queued_submission form formData reads :=
  (QueuedAction.mk
     {| Action.type := action_type formData;
        Action.url := form_action form;
        Action.method := Some (toUpperCase (form_method form));
        Action.headers := [];
        Action.body := stringify formData |}
     (store_timestamp reads) false
     (inject_Z (store_id reads) + store_random reads)).



(** X28. While the manager is offline a submission sends nothing, whatever
    [navigator.onLine] says: the network is left as it is and the answer is
    the one of [storeOfflineAction]. *)
Theorem offline_submission_sends_nothing
    (page : Page Data) (m : OfflineManager.t Data) (form : Form) (entries : Fields)
    (reads : Reads) (n : Net) :
  offlineManager page = Some m ->
  isOnline m = false ->
  snd (submit page form entries reads n) = n
  /\ fst (fst (submit page form entries reads n))
     = fst (storeOfflineAction m
              (QueuedAction.action
                 (queued_submission form (formObject form entries reads) reads))
              (store_timestamp reads) (store_id reads) (store_random reads)).
Proof.
  intros Hm Hoff. unfold handleFormSubmission, isOffline. cbv zeta.
  rewrite Hm, Hoff. cbn [negb snd fst]. split; [reflexivity |].
  unfold handleOfflineSubmission. rewrite Hm. cbn [QueuedAction.action].
  destruct (storeOfflineAction m _ _ _ _) as [success m1].
  now destruct success.
Qed.

(** X29. A request that fails while the manager believes it is online is queued
    only if [navigator.onLine] is false at that moment; if the browser still
    reports a connection the submission answers false and leaves the page,
    queue included, as it was. *)
Theorem failed_submission_is_dropped_when_navigator_is_online
    (page : Page Data) (form : Form) (entries : Fields) (reads : Reads) (n : Net) :
  match offlineManager page with Some m => isOnline m = true | None => True end ->
  fst (fetch n (submit_request csrf_meta stringify form (formObject form entries reads)))
  = None ->
  onLine page = true ->
  fst (submit page form entries reads n) = (false, page).
Proof.
  intros Hm Hfail Hnav. unfold handleFormSubmission. cbv zeta.
  assert (Honline :
    fst (handleOnlineSubmission fetch csrf_meta stringify page form
           (formObject form entries reads) reads n) = (false, page)).
  { unfold handleOnlineSubmission.
    destruct (fetch n _) as [response n1]. cbn [fst] in Hfail. subst response.
    now rewrite Hnav. }
  destruct (offlineManager page) as [m |]; [| exact Honline].
  unfold isOffline. now rewrite Hm.
Qed.

End Submission.

Section TimeAgo.
Import OfflineForms OfflineDashboard.



End TimeAgo.

Section FormExamples.
Import OfflineManager ManagerApi OfflineForms OfflineDashboard MoreSamples FormSamples.
Local Open Scope Q_scope.

Lemma form_state_is_restored_for_a_day_witness :
  restoreFormState (saveFormState ∅ new_bill_form bill_entries 1000) new_bill_form 2000
  = (if (2000 - 1000 <? 86400000)%Z then Some bill_entries else None)
  /\ restoreFormState
       (clearFormState (saveFormState ∅ new_bill_form bill_entries 1000) new_bill_form)
       new_bill_form 2000
     = None
  /\ restoreFormState (saveFormState ∅ new_bill_form bill_entries 1000) lost_form 2000
     = restoreFormState ∅ lost_form 2000.
Proof.
  split; [| split].
  - apply (proj1 (form_state_is_restored_for_a_day ∅ new_bill_form new_bill_form
                    bill_entries 1000 2000)). reflexivity.
  - apply (proj1 (proj2 (form_state_is_restored_for_a_day ∅ new_bill_form new_bill_form
                           bill_entries 1000 2000))). reflexivity.
  - apply (proj2 (proj2 (form_state_is_restored_for_a_day ∅ new_bill_form lost_form
                           bill_entries 1000 2000))). discriminate.
Defined.


Lemma offline_submission_sends_nothing_witness :
  snd (handleFormSubmission Sample.server None show_fields offline_page new_bill_form
         bill_entries reads 0%nat) = 0%nat
  /\ fst (fst (handleFormSubmission Sample.server None show_fields offline_page
                 new_bill_form bill_entries reads 0%nat))
     = fst (storeOfflineAction (Sample.with_queue false [])
              {| Action.type := action_type (formObject new_bill_form bill_entries reads);
                 Action.url := form_action new_bill_form;
                 Action.method := Some (toUpperCase (form_method new_bill_form));
                 Action.headers := [];
                 Action.body := show_fields (formObject new_bill_form bill_entries reads) |}
              (store_timestamp reads) (store_id reads) (store_random reads)).
Proof.
  apply (offline_submission_sends_nothing Sample.server None show_fields offline_page
           (Sample.with_queue false []) new_bill_form bill_entries reads 0%nat);
    reflexivity.
Defined.

Lemma failed_submission_is_dropped_when_navigator_is_online_witness :
  fst (handleFormSubmission Sample.server None show_fields online_page lost_form
         bill_entries reads 0%nat)
  = (false, online_page).
Proof.
  apply (failed_submission_is_dropped_when_navigator_is_online Sample.server None
           show_fields online_page lost_form bill_entries reads 0%nat);
    reflexivity.
Defined.


Example one_minute_ago : getTimeAgo 1700000090000 1700000000000 = "1 minute ago".
Proof. reflexivity. Qed.

Example three_days_ago : getTimeAgo (3 * 86400000 + 5) 0 = "3 days ago".
Proof. reflexivity. Qed.

Example date_in_the_future : getTimeAgo 0 5000000 = "just now".
Proof. reflexivity. Qed.

End FormExamples.
